(** * CodeMemoryPipeline: a shallow embedding of
      [aqchat/pipelines/code_memory_pipeline.py]

    The pipeline object keeps a handle on a Chroma collection persisted in a
    directory, a retriever built from a settings dictionary, and the root of
    the repository it ingested.  Every method runs under the instance lock,
    so the methods are modelled as sequential state transformers that may
    raise; the state a method reached when it raises is kept, as in Python.

    What lives outside the file is kept abstract or modelled at its
    interface:
    - [split_documents] (module [pipelines.boundary_splitter]) and
      [resolve] ([Path(p).expanduser().resolve()], which depends on the
      working directory, the home directory and symbolic links) are section
      variables;
    - the Chroma collection is the list of documents it holds: adding
      appends and refuses an empty batch, [delete(where={"source": s})]
      removes the documents whose [source] metadata is [s], a handle is a
      truthy object, [as_retriever] runs the retriever's validator, which
      refuses a [search_type] of [None], and the library's client of a
      directory outlives the removal of the database in it;
    - [TextLoader] reads one file into one document, or raises;
    - strings are sequences of code points below 256.

    From [aqchat/chat.py] the file also embeds [get_memory_pipeline], the
    two phases that read the streamed answer and
    [format_reasoning_response]; the Streamlit widgets they write to are
    kept as a list of events. *)

From Stdlib Require Import String Ascii ZArith QArith List Bool Lia.
From stdpp Require Import base option list gmap strings.

Local Set Warnings "-register-all".
Local Open Scope string_scope.
Local Open Scope list_scope.

(** ** Python values and documents *)

(** The values a settings or metadata dictionary holds. *)
Inductive PyVal :=
| PyStr (s : string)
| PyInt (n : Z)
| PyFloat (q : Q)
| PyBool (b : bool)
| PyNone
| PyList (l : list PyVal).

(** [value == s] for a string literal [s]. *)
Definition py_eq_str (v : PyVal) (s : string) : bool :=
  match v with
  | PyStr s' => String.eqb s' s
  | _ => false
  end.

(** [langchain_core.documents.Document] *)
Record Document := mkDocument {
  page_content : string;
  metadata : gmap string PyVal
}.

(** The exceptions the methods raise or let through. *)
Inductive exn :=
| RuntimeError (msg : string)
| ValueError (msg : string)
| FileNotFoundError (msg : string)
| KeyError (key : string)
| TypeError
| ChromaError (msg : string).

Inductive result (A : Type) :=
| Ok (a : A)
| Raise (e : exn).
Arguments Ok {A} a.
Arguments Raise {A} e.

(** [str(ex)], as interpolated in the constructor's warning. *)
Definition str_exn (e : exn) : string :=
  match e with
  | RuntimeError m | ValueError m | FileNotFoundError m | ChromaError m => m
  | KeyError k => "'" ++ k ++ "'"
  | TypeError => "TypeError"
  end.

(** ** Strings: [str.strip], [str.lower], [len] *)

(** [str.isspace] on code points below 256. *)
Definition is_space (a : ascii) : bool :=
  let n := nat_of_ascii a in
  (((9 <=? n) && (n <=? 13)) || ((28 <=? n) && (n <=? 32))
   || (n =? 133) || (n =? 160))%nat.

Fixpoint lstrip (s : string) : string :=
  match s with
  | EmptyString => EmptyString
  | String a s' => if is_space a then lstrip s' else s
  end.

Fixpoint rstrip (s : string) : string :=
  match s with
  | EmptyString => EmptyString
  | String a s' =>
      match rstrip s' with
      | EmptyString => if is_space a then EmptyString else String a EmptyString
      | r => String a r
      end
  end.

Definition strip (s : string) : string := rstrip (lstrip s).

(** [str.lower] on code points below 256. *)
Definition lower_char (a : ascii) : ascii :=
  let n := nat_of_ascii a in
  if (((65 <=? n) && (n <=? 90))
      || ((192 <=? n) && (n <=? 222) && negb (n =? 215)))%nat
  then ascii_of_nat (n + 32) else a.

Fixpoint lower (s : string) : string :=
  match s with
  | EmptyString => EmptyString
  | String a s' => String (lower_char a) (lower s')
  end.

(** The chunk filter of [ingest] and [update_files]:
    [len(chunk.page_content.strip()) > 3]. *)
Definition long_enough (chunk : Document) : bool :=
  (3 <? String.length (strip (page_content chunk)))%nat.

(** ** Paths *)

(** A path is the list of its components; an absolute path is read from
    the root directory, a relative one from the repository root. *)
Definition path := list string.

Fixpoint join_parts (parts : path) : string :=
  match parts with
  | [] => ""
  | [x] => x
  | x :: rest => x ++ "/" ++ join_parts rest
  end.

(** [str(p)] for a relative path ([Path('.')] when it has no component). *)
Definition str_rel (p : path) : string :=
  match p with
  | [] => "."
  | _ => join_parts p
  end.

(** [str(p)] for an absolute path. *)
Definition str_abs (p : path) : string := "/" ++ join_parts p.

(** [p.relative_to(root)]: [None] stands for the [ValueError]. *)
Fixpoint relative_to (p root : path) : option path :=
  match root with
  | [] => Some p
  | r :: root' =>
      match p with
      | [] => None
      | x :: p' => if String.eqb x r then relative_to p' root' else None
      end
  end.

(** [p.name] *)
Definition name (p : path) : string := List.last p "".

(** Index of the last dot of a name, if any ([name.rfind('.')]). *)
Fixpoint rfind_dot (s : string) : option nat :=
  match s with
  | EmptyString => None
  | String a s' =>
      match rfind_dot s' with
      | Some i => Some (S i)
      | None => if Ascii.eqb a "." then Some 0 else None
      end
  end.

(** [p.suffix]: [name[i:]] when [0 < i < len(name) - 1], else the empty
    string. *)
Definition suffix (p : path) : string :=
  let nm := name p in
  match rfind_dot nm with
  | Some i =>
      if ((0 <? i) && (i <? String.length nm - 1))%nat
      then String.substring i (String.length nm - i) nm
      else ""
  | None => ""
  end.

(** ** The file system of the repository *)

(** A file holds text, or bytes that do not decode as UTF-8 ([None]). *)
Inductive Node :=
| File (content : option string)
| Dir (entries : list (string * Node)).

Fixpoint find_entry (nm : string) (entries : list (string * Node)) : option Node :=
  match entries with
  | [] => None
  | (k, n) :: rest => if String.eqb k nm then Some n else find_entry nm rest
  end.

(** The node an absolute path leads to. *)
Fixpoint lookup_path (fs : Node) (p : path) : option Node :=
  match p with
  | [] => Some fs
  | x :: p' =>
      match fs with
      | Dir entries =>
          match find_entry x entries with
          | Some n => lookup_path n p'
          | None => None
          end
      | File _ => None
      end
  end.

Definition exists_ (fs : Node) (p : path) : bool :=
  match lookup_path fs p with Some _ => true | None => false end.

Definition is_dir (n : Node) : bool :=
  match n with Dir _ => true | File _ => false end.

Definition is_file (n : Node) : bool :=
  match n with File _ => true | Dir _ => false end.

(** [root.rglob("*")]: every path below the node, directories and files
    alike, each with the node it leads to: the entries of a directory,
    then what lies below each of them.  The paths are relative to the node
    the walk starts from; the order inside a directory is the one the file
    system lists. *)
Fixpoint rglob (n : Node) : list (path * Node) :=
  match n with
  | File _ => []
  | Dir entries =>
      List.map (fun '(k, child) => ([k], child)) entries
      ++ (fix below (es : list (string * Node)) : list (path * Node) :=
            match es with
            | [] => []
            | (k, child) :: rest =>
                List.map (fun '(p, c) => (k :: p, c)) (rglob child) ++ below rest
            end) entries
  end.

(** ** The persisted collection and the pipeline object *)

(** [filter_complex_metadata]: every document keeps the metadata entries
    whose value is a [str], [bool], [int] or [float]. *)
Definition is_allowed_type (v : PyVal) : bool :=
  match v with
  | PyStr _ | PyInt _ | PyFloat _ | PyBool _ => true
  | PyNone | PyList _ => false
  end.

Definition filter_complex_metadata (documents : list Document) : list Document :=
  List.map
    (fun d => mkDocument (page_content d)
                (filter (fun kv => is_allowed_type (snd kv) = true) (metadata d)))
    documents.

(** The test of a [where={"source": s}] filter on one stored document. *)
Definition source_is (s : string) (d : Document) : bool :=
  match metadata d !! "source" with
  | Some v => py_eq_str v s
  | None => false
  end.

(** What the persist directory holds, as the store library of the running
    process finds it: nothing, a collection, or data it cannot open.  The
    library keeps one client per directory for the life of the process, so
    a directory that was emptied after the library had been asked to open
    it is a case of its own, [RemovedUnderClient]: the directory is empty,
    and the client, which still points at the removed database, fails. *)
Inductive PersistDir :=
| EmptyDir
| ChromaStore (docs : list Document)
| Unreadable (why : string)
| RemovedUnderClient.

(** A [Chroma] object: a client of the collection in the persist
    directory.  The documents are on disk, not in the handle. *)
Inductive Chroma := ChromaClient.

(** [VectorStoreRetriever], as [as_retriever] is asked to build it. *)
Record Retriever := mkRetriever {
  vectorstore : Chroma;
  search_type : option string;
  search_kwargs : option (gmap string PyVal)
}.

(** [self.chain] is first assigned by [_clear]. *)
Inductive ChainAttr := ChainUnset | ChainNone.

(** The attributes of a [CodeMemoryPipeline] that change or are read;
    the lock, the splitter, the detectors and the embeddings are fixed at
    construction. *)
Record CodeMemoryPipeline := mkPipeline {
  retrieval_settings : gmap string PyVal;
  include_ext : gset string;
  vector_store : option Chroma;
  retriever : option Retriever;
  chain : ChainAttr;
  _repo_root : option path
}.

(** The object, the content of [self.persist_directory] on disk, and what
    was printed. *)
Record World := mkWorld {
  self : CodeMemoryPipeline;
  disk : PersistDir;
  stdout : list string
}.

Definition set_retrieval_settings_attr (v : gmap string PyVal) (p : CodeMemoryPipeline) :=
  mkPipeline v (include_ext p) (vector_store p) (retriever p) (chain p) (_repo_root p).
Definition set_vector_store (v : option Chroma) (p : CodeMemoryPipeline) :=
  mkPipeline (retrieval_settings p) (include_ext p) v (retriever p) (chain p) (_repo_root p).
Definition set_retriever (v : option Retriever) (p : CodeMemoryPipeline) :=
  mkPipeline (retrieval_settings p) (include_ext p) (vector_store p) v (chain p) (_repo_root p).
Definition set_chain (v : ChainAttr) (p : CodeMemoryPipeline) :=
  mkPipeline (retrieval_settings p) (include_ext p) (vector_store p) (retriever p) v (_repo_root p).
Definition set_repo_root (v : option path) (p : CodeMemoryPipeline) :=
  mkPipeline (retrieval_settings p) (include_ext p) (vector_store p) (retriever p) (chain p) v.

(** ** Methods as state transformers that may raise *)

Definition M (A : Type) : Type := World -> result A * World.

Definition ret {A} (a : A) : M A := fun w => (Ok a, w).
Definition raise {A} (e : exn) : M A := fun w => (Raise e, w).
Definition bind {A B} (c : M A) (k : A -> M B) : M B :=
  fun w =>
    match c w with
    | (Ok a, w') => k a w'
    | (Raise e, w') => (Raise e, w')
    end.
Definition lift {A} (r : result A) : M A := fun w => (r, w).
Definition gets {A} (f : CodeMemoryPipeline -> A) : M A := fun w => (Ok (f (self w)), w).
Definition modify (f : CodeMemoryPipeline -> CodeMemoryPipeline) : M unit :=
  fun w => (Ok tt, mkWorld (f (self w)) (disk w) (stdout w)).
Definition print (line : string) : M unit :=
  fun w => (Ok tt, mkWorld (self w) (disk w) (stdout w ++ [line])).
(** [try: body except Exception as ex: handler(ex)] *)
Definition try_except (body : M unit) (handler : exn -> M unit) : M unit :=
  fun w =>
    match body w with
    | (Ok a, w') => (Ok a, w')
    | (Raise e, w') => handler e w'
    end.

Declare Scope pipeline_scope.
Delimit Scope pipeline_scope with pipeline.
Notation "x <- c ;; k" := (bind c (fun x => k))
  (at level 100, c at next level, right associativity) : pipeline_scope.
Notation "c ;; k" := (bind c (fun _ => k))
  (at level 100, right associativity) : pipeline_scope.
Local Open Scope pipeline_scope.

(** [for x in l: body(x)] *)
Fixpoint for_each {A} (body : A -> M unit) (l : list A) : M unit :=
  match l with
  | [] => ret tt
  | x :: rest => body x ;; for_each body rest
  end.

(** [acc = []; for x in l: acc.extend(f(x))], for an [f] that only reads. *)
Fixpoint extend_each {A B} (f : A -> result (list B)) (l : list A) : result (list B) :=
  match l with
  | [] => Ok []
  | x :: rest =>
      match f x with
      | Raise e => Raise e
      | Ok ys =>
          match extend_each f rest with
          | Raise e => Raise e
          | Ok zs => Ok (ys ++ zs)
          end
      end
  end.

(** *** The store library, at its interface *)

(** The error of the store library when its client points at a database
    that was removed (SQLite code 1032). *)
Definition database_moved : string := "attempt to write a readonly database".

(** The documents of the collection in the directory; data that cannot be
    opened, or a client left without its database, makes every access
    raise. *)
Definition collection (d : PersistDir) : result (list Document) :=
  match d with
  | EmptyDir => Ok []
  | ChromaStore docs => Ok docs
  | Unreadable why => Raise (ChromaError why)
  | RemovedUnderClient => Raise (ChromaError database_moved)
  end.

Definition with_collection (f : list Document -> list Document) : M unit :=
  fun w =>
    match collection (disk w) with
    | Ok docs => (Ok tt, mkWorld (self w) (ChromaStore (f docs)) (stdout w))
    | Raise e => (Raise e, w)
    end.

(** [Chroma(persist_directory=..., embedding_function=...)] *)
Definition Chroma_open : M Chroma :=
  with_collection (fun docs => docs) ;; ret ChromaClient.

(** The error of the store library for an upsert of no record (the
    wording is the library's). *)
Definition empty_upsert : exn :=
  ValueError "Expected IDs to be a non-empty list, got 0 IDs in upsert.".

(** [vector_store.add_documents(chunks)]: an empty list is refused. *)
Definition add_documents (vs : Chroma) (chunks : list Document) : M unit :=
  match chunks with
  | [] => raise empty_upsert
  | _ => with_collection (fun docs => docs ++ chunks)
  end.

(** [vector_store.delete(where={"source": s})] *)
Definition delete_where_source (vs : Chroma) (s : string) : M unit :=
  with_collection (List.filter (fun d => negb (source_is s d))).

(** [Chroma.from_documents(documents=chunks, ..., persist_directory=...)]:
    opens the collection of the directory, creating it when the directory
    is empty, and adds the documents; with no document the addition raises
    after the collection was opened. *)
Definition Chroma_from_documents (chunks : list Document) : M Chroma :=
  vs <- Chroma_open ;;
  add_documents vs chunks ;;
  ret vs.

(** The error of the retriever's validator for a search type that is not
    one of its allowed ones (reported by the library as a validation
    error, a [ValueError]; the wording is the library's). *)
Definition search_type_error (shown : string) : exn :=
  ValueError ("search_type of " ++ shown ++ " not allowed. Valid values are: ('similarity', 'similarity_score_threshold', 'mmr')").

(** The error for [search_type=None]. *)
Definition search_type_not_allowed : exn := search_type_error "None".

Definition allowed_search_types : list string :=
  ["similarity"; "similarity_score_threshold"; "mmr"].

(** The check [as_retriever] runs on [search_type] before it builds the
    retriever.  ([_build_chain] never asks for
    ["similarity_score_threshold"], whose further check on the keyword
    arguments is left out.) *)
Definition validate_search_type (search_type : option string) : result unit :=
  match search_type with
  | Some s =>
      if List.existsb (String.eqb s) allowed_search_types then Ok tt
      else Raise (search_type_error s)
  | None => Raise search_type_not_allowed
  end.

(** The retriever [vector_store.as_retriever(search_type=...,
    search_kwargs=...)] returns once the check has passed. *)
Definition as_retriever (vs : Chroma) (search_type : option string)
    (search_kwargs : option (gmap string PyVal)) : Retriever :=
  mkRetriever vs search_type search_kwargs.

(** [any(self.persist_directory.iterdir())] *)
Definition dir_nonempty (d : PersistDir) : bool :=
  match d with
  | EmptyDir | RemovedUnderClient => false
  | ChromaStore _ | Unreadable _ => true
  end.

(** [d[key]] *)
Definition getitem (d : gmap string PyVal) (key : string) : result PyVal :=
  match d !! key with
  | Some v => Ok v
  | None => Raise (KeyError key)
  end.

Notation "'let?' x ':=' c 'in' k" :=
  (match c with Ok x => k | Raise e => Raise e end)
  (at level 10, x name, c at level 100, k at level 200) : pipeline_scope.

(** *** [_build_chain] *)

(** The strategy and the keyword arguments [_build_chain] selects from
    the settings: the pair [(ret_strat, search_settings)] it hands to
    [as_retriever]. *)
Definition search_choice (rs : gmap string PyVal)
    : result (option string * option (gmap string PyVal)) :=
  let? ret_strat := getitem rs "ret_strat" in
  if py_eq_str ret_strat "mmr" then
    let? k := getitem rs "k" in
    let? fetch_k := getitem rs "fetch_k" in
    let? lambda_mult := getitem rs "lambda_mult" in
    Ok (Some "mmr",
        Some (<["k" := k]> (<["fetch_k" := fetch_k]>
                (<["lambda_mult" := lambda_mult]> (∅ : gmap string PyVal)))))
  else if py_eq_str ret_strat "similarity" then
    let? k := getitem rs "k" in
    Ok (Some "similarity", Some (<["k" := k]> (∅ : gmap string PyVal)))
  else Ok (None, None).

(** The call [self.vector_store.as_retriever(search_type=ret_strat,
    search_kwargs=search_settings)] is the library's check of the search
    type followed by the construction; [self.retriever] is assigned only
    when the call has returned. *)
Definition _build_chain : M unit :=
  vs <- gets vector_store ;;
  match vs with
  | None =>
      raise (RuntimeError
               "Vector store must be initialised before building the retriever.")
  | Some vs =>
      rs <- gets retrieval_settings ;;
      choice <- lift (search_choice rs) ;;
      lift (validate_search_type (fst choice)) ;;
      modify (set_retriever (Some (as_retriever vs (fst choice) (snd choice))))
  end.

(** *** File-system helpers *)

Definition ignore_dirs : gset string :=
  {[ ".git"; ".venv"; "__pycache__"; "dist"; "build"; ".idea" ]}.

(** [_load_single_file]: [TextLoader(str(abs_path), encoding="utf-8").load()]
    gives one document whose [source] is the path it read, and the loop
    rewrites [source] to [str(rel_path)]. *)
Definition _load_single_file (fs : Node) (abs_path rel_path : path) : result (list Document) :=
  match lookup_path fs abs_path with
  | Some (File (Some text)) =>
      Ok [ mkDocument text
             (<["source" := PyStr (str_rel rel_path)]>
                (<["source" := PyStr (str_abs abs_path)]> (∅ : gmap string PyVal))) ]
  | _ => Raise (RuntimeError ("Error loading " ++ str_abs abs_path))
  end.

(** [_load_repo]: the body of the loop over [root.rglob("*")], then the
    loop. *)
Definition load_entry (exts : gset string) (fs : Node) (root : path)
    (entry : path * Node) : result (list Document) :=
  let '(rel, node) := entry in
  if is_dir node && bool_decide (name rel ∈ ignore_dirs) then Ok []
  else if is_file node && bool_decide (lower (suffix rel) ∈ exts)
       then _load_single_file fs (root ++ rel) rel
       else Ok [].

Definition _load_repo (exts : gset string) (fs : Node) (root : path) : result (list Document) :=
  match lookup_path fs root with
  | Some node => extend_each (load_entry exts fs root) (rglob node)
  | None => Ok []
  end.

(** ** The methods *)

Section Pipeline.

(** [self.text_splitter.split_documents(docs, boundary_detectors=...)],
    from [pipelines.boundary_splitter]. *)
Variable split_documents : list Document -> list Document.

(** [Path(p).expanduser().resolve()]: the components of the absolute
    path an argument stands for.  The result is always absolute, so the
    test [p.is_absolute()] of [update_files] always holds. *)
Variable resolve : string -> path.

(** The three steps both [ingest] and [update_files] apply to the
    loaded documents before they reach the store. *)
Definition make_chunks (docs : list Document) : list Document :=
  let chunks := split_documents docs in
  let chunks := filter_complex_metadata chunks in
  List.filter long_enough chunks.

Definition default_retrieval_settings : gmap string PyVal :=
  <["ret_strat" := PyStr "mmr"]> (<["k" := PyInt 6]> (<["fetch_k" := PyInt 20]>
    (<["lambda_mult" := PyFloat (1 # 2)]> ∅))).

Definition default_include_ext : gset string :=
  {[ ".md"; ".rst"; ".txt"; ".json"; ".toml"; ".cfg"; ".yaml"; ".yml";
     ".py"; ".rs" ]}.

(** The attributes [__init__] sets before it looks at the persist
    directory; [include_ext or {...}] takes the defaults for [None] and
    for an empty collection. *)
Definition fresh (include_ext : option (list string))
    (retrieval_settings : gmap string PyVal)
    (persist_directory : PersistDir) : World :=
  let exts :=
    match include_ext with
    | Some (x :: l) => list_to_set (x :: l)
    | _ => default_include_ext
    end in
  mkWorld (mkPipeline retrieval_settings exts None None ChainUnset None)
          persist_directory [].

(** The body of the [try] of [__init__]. *)
Definition restore : M unit :=
  vs <- Chroma_open ;;
  modify (set_vector_store (Some vs)) ;;
  _build_chain.

(** The [except Exception as ex] clause of [__init__]. *)
Definition start_fresh (ex : exn) : M unit :=
  print ("WARNING: Could not initialize vector stores from disk: "
           ++ str_exn ex) ;;
  modify (set_vector_store None) ;;
  modify (set_retriever None).

Definition __init__ (include_ext : option (list string))
    (retrieval_settings : gmap string PyVal)
    (persist_directory : PersistDir) : World :=
  let w := fresh include_ext retrieval_settings persist_directory in
  if dir_nonempty persist_directory
  then snd (try_except restore start_fresh w)
  else w.

Definition ingest (fs : Node) (repo_path : string) : M unit :=
  let repo_path := resolve repo_path in
  if negb (exists_ fs repo_path)
  then raise (FileNotFoundError (str_abs repo_path ++ " does not exist"))
  else
    modify (set_repo_root (Some repo_path)) ;;
    exts <- gets include_ext ;;
    docs <- lift (_load_repo exts fs repo_path) ;;
    vs <- Chroma_from_documents (make_chunks docs) ;;
    modify (set_vector_store (Some vs)) ;;
    _build_chain.

(** One turn of the normalising loop of [update_files];
    [relative_to(None)] is a [TypeError]. *)
Definition normalise (root : option path) (p : string) : result (list path) :=
  let p := resolve p in
  match root with
  | None => Raise TypeError
  | Some root =>
      match relative_to p root with
      | Some rel => Ok [rel]
      | None =>
          Raise (ValueError
                   (str_abs p ++ " is outside the ingested repository root"))
      end
  end.

(** One turn of the reloading loop of [update_files]. *)
Definition reload (fs : Node) (root : option path) (rel_path : path)
    : result (list Document) :=
  match root with
  | None => Raise TypeError
  | Some root =>
      let abs_path := root ++ rel_path in
      if negb (exists_ fs abs_path) then Ok []
      else _load_single_file fs abs_path rel_path
  end.

Definition update_files (fs : Node) (file_paths : list string) : M unit :=
  vs <- gets vector_store ;;
  match vs with
  | None => raise (RuntimeError "Call .ingest(<repo>) before updating files.")
  | Some vs =>
      root <- gets _repo_root ;;
      normalised <- lift (extend_each (normalise root) file_paths) ;;
      for_each (fun rel_path => delete_where_source vs (str_rel rel_path))
               normalised ;;
      docs <- lift (extend_each (reload fs root) normalised) ;;
      match docs with
      | [] => ret tt
      | _ => add_documents vs (make_chunks docs)
      end ;;
      _build_chain
  end.

Definition ready_for_retrieval : M bool :=
  r <- gets retriever ;;
  ret (match r with Some _ => true | None => false end).

Definition _clear : M unit :=
  modify (set_vector_store None) ;;
  modify (set_retriever None) ;;
  modify (set_chain ChainNone) ;;
  modify (set_repo_root None).

Definition clear : M unit := _clear.

Definition has_vector_db : M bool :=
  vs <- gets vector_store ;;
  ret (match vs with Some _ => true | None => false end).

(** [shutil.rmtree] then [mkdir]: the directory is left empty.  Whatever
    it held, the constructor or [ingest] has asked the store library to
    open it, and the library's client outlives it. *)
Definition rmtree_mkdir (d : PersistDir) : PersistDir :=
  match d with
  | EmptyDir => EmptyDir
  | ChromaStore _ | Unreadable _ | RemovedUnderClient => RemovedUnderClient
  end.

Definition clear_vector_db : M unit :=
  _clear ;;
  (fun w => (Ok tt, mkWorld (self w) (rmtree_mkdir (disk w)) (stdout w))).

Definition set_retrieval_settings (settings : gmap string PyVal) : M unit :=
  modify (set_retrieval_settings_attr settings) ;;
  _build_chain.

End Pipeline.

(** ** Concrete instances used to run the model *)

(** A splitter that keeps each document as one chunk. *)
Definition one_chunk_per_document (docs : list Document) : list Document := docs.

(** Resolution of an absolute path without symbolic links: the components
    between the slashes, with [.] dropped and [..] going one level up. *)
Fixpoint split_slash (s : string) (cur : string) : list string :=
  match s with
  | EmptyString => [cur]
  | String a s' =>
      if Ascii.eqb a "/" then cur :: split_slash s' ""
      else split_slash s' (cur ++ String a EmptyString)
  end.

Definition posix_resolve (s : string) : path :=
  List.rev
    (List.fold_left
       (fun acc part =>
          if String.eqb part "" || String.eqb part "." then acc
          else if String.eqb part ".." then List.tl acc
          else part :: acc)
       (split_slash s "") []).

(** ** Vocabulary of the statements *)

(** A document carries one of the given [source] strings. *)
Definition in_sources (ss : list string) (d : Document) : bool :=
  List.existsb (fun s => source_is s d) ss.

(** The documents of other sources. *)
Definition without_sources (ss : list string) (docs : list Document) : list Document :=
  List.filter (fun d => negb (in_sources ss d)) docs.

(** The splitter gives every chunk the [source] of one of the documents
    it was handed. *)
Definition preserves_source (split : list Document -> list Document) : Prop :=
  forall docs c, In c (split docs) ->
    exists d, In d docs /\ metadata c !! "source" = metadata d !! "source".

(** The settings let [_build_chain] find every key it reads. *)
Definition settings_ok (rs : gmap string PyVal) : bool :=
  match search_choice rs with Ok _ => true | Raise _ => false end.

(** The settings select a retriever [as_retriever] accepts: every key
    read is there and the tag is a recognised one. *)
Definition retriever_builds (rs : gmap string PyVal) : bool :=
  match search_choice rs with
  | Ok (Some _, _) => true
  | _ => false
  end.

(** Documents were reloaded and none of their chunks passed the filters:
    [update_files] then calls [add_documents] with an empty list. *)
Definition adds_nothing (split_documents : list Document -> list Document)
    (loaded : list Document) : bool :=
  match loaded, make_chunks split_documents loaded with
  | _ :: _, [] => true
  | _, _ => false
  end.

(** The chunks [update_files] adds for the documents it reloaded: none
    when nothing was reloaded. *)
Definition added_chunks (split_documents : list Document -> list Document)
    (loaded : list Document) : list Document :=
  match loaded with
  | [] => []
  | _ => make_chunks split_documents loaded
  end.

(** The chunks one call adds for the normalised paths: those of the
    files it could reload, and none when a file failed to load. *)
Definition reloaded_chunks (split_documents : list Document -> list Document)
    (fs : Node) (root : path) (rels : list path) : list Document :=
  match extend_each (reload fs (Some root)) rels with
  | Ok loaded => added_chunks split_documents loaded
  | Raise _ => []
  end.

(** [safe Inv Bad c]: from a world where [Inv] holds, [c] ends in a
    world where [Inv] holds, whether it returns or raises, and it raises
    no exception of [Bad]. *)
Definition safe {A} (Inv : World -> Prop) (Bad : exn -> Prop) (c : M A) : Prop :=
  forall w, Inv w ->
    Inv (snd (c w)) /\ forall e, fst (c w) = Raise e -> ~ Bad e.

(** The documents of the persisted collection, as far as it can be read. *)
Definition stored (w : World) : list Document :=
  match collection (disk w) with
  | Ok docs => docs
  | Raise _ => []
  end.

(** Every document of [w'] was already in [w0], or its stripped content
    has more than three characters. *)
Definition only_long_added (w0 w' : World) : Prop :=
  forall d, In d (stored w') ->
    In d (stored w0) \/ (3 < String.length (strip (page_content d)))%nat.

(** The error of the guard of [update_files]. *)
Definition not_ingested : exn :=
  RuntimeError "Call .ingest(<repo>) before updating files.".

(** ** A small repository to run the model on *)

(** A repository under [/repo]: two Python files, a two-character text
    file, and a build directory holding a Markdown file. *)
Definition demo_fs : Node :=
  Dir [("repo",
        Dir [("a.py", File (Some "def f(): return 1"));
             ("b.py", File (Some "def g(): return 2"));
             ("ok.txt", File (Some " ok "));
             ("build", Dir [("notes.md", File (Some "stale build notes"))])])].

(** The same repository after [a.py] was edited and [b.py] removed. *)
Definition demo_fs_edited : Node :=
  Dir [("repo",
        Dir [("a.py", File (Some "def f(): return 3"));
             ("ok.txt", File (Some " ok "));
             ("build", Dir [("notes.md", File (Some "stale build notes"))])])].

(** One document as [_load_single_file] builds it. *)
Definition loaded_document (text abs_path rel_path : string) : Document :=
  mkDocument text
    (<["source" := PyStr rel_path]> (<["source" := PyStr abs_path]> ∅)).

(** A new object over an empty persist directory, and the world after it
    ingested [/repo]. *)
Definition new_world : World := __init__ None default_retrieval_settings EmptyDir.

Definition demo_world : World :=
  snd (ingest one_chunk_per_document posix_resolve demo_fs "/repo" new_world).

(** A new object over the persist directory an earlier process left. *)
Definition restored_world : World :=
  __init__ None default_retrieval_settings
    (ChromaStore [loaded_document "def f(): return 1" "/repo/a.py" "a.py"]).

Definition with_settings (rs : gmap string PyVal) (w : World) : World :=
  mkWorld (set_retrieval_settings_attr rs (self w)) (disk w) (stdout w).

Definition similarity_settings : gmap string PyVal :=
  <["ret_strat" := PyStr "similarity"]> (<["k" := PyInt 4]>
    (<["fetch_k" := PyInt 20]> ∅)).

Definition unknown_settings : gmap string PyVal :=
  <["ret_strat" := PyStr "bm25"]> (<["k" := PyInt 4]> ∅).

(** ** More vocabulary: what holds between the handles *)

(** A retriever is only there with a store handle, and a store handle
    only with a collection in the persist directory. *)
Definition handles_consistent (w : World) : Prop :=
  (retriever (self w) <> None -> vector_store (self w) <> None)
  /\ (vector_store (self w) <> None -> exists docs, disk w = ChromaStore docs).

(** The world [ingest] leaves when it raises after it stored the root. *)
Definition with_repo_root (root : path) (w : World) : World :=
  mkWorld (set_repo_root (Some root) (self w)) (disk w) (stdout w).

(** A file entry of the walk that can be read as text. *)
Definition readable (fs : Node) (p : path) : Prop :=
  exists text, lookup_path fs p = Some (File (Some text)).

(** ** [chat.py]: the memory pipeline of a repository *)

(** The environment variables [get_memory_pipeline] reads. *)
Record Environ := mkEnviron {
  USE_CHAT_PIPELINE : option string;
  OLLAMA_URL : option string;
  OLLAMA_EMBEDDING_MODEL : option string
}.

(** [os.environ.get(name, default)] *)
Definition environ_get (value : option string) (default : string) : string :=
  match value with
  | Some v => v
  | None => default
  end.

(** What [get_memory_pipeline] prints before it builds the object. *)
Definition memory_pipeline_banner (env : Environ) (repo_name : string) : list string :=
  ("[pipeline] making memory pipeline for " ++ repo_name)%string
  :: (if String.eqb (environ_get (USE_CHAT_PIPELINE env) "TESTING") "OLLAMA"
      then [ ("[pipeline] using embedding from ollama server on "
                ++ environ_get (OLLAMA_URL env) "http://localhost:11434")%string;
             ("[pipeline] using embedding model "
                ++ environ_get (OLLAMA_EMBEDDING_MODEL env)
                     "unclemusclez/jina-embeddings-v2-base-code")%string ]
      else [ "[pipeline] no ollama server set; using default embedding model" ]).

(** [get_memory_pipeline(repo_name)]: a pipeline over the persist
    directory [data_dir/chroma/<repo_name>], ingesting
    [data_dir/repos/<repo_name>] when construction restored no store.
    The result is the call's outcome and the world holding the object
    (which [st.cache_resource] hands out again on later calls). *)
Definition get_memory_pipeline
    (split_documents : list Document -> list Document) (resolve : string -> path)
    (env : Environ) (data_dir repo_name : string) (fs : Node)
    (persist_directory : PersistDir) : result unit * World :=
  let banner := memory_pipeline_banner env repo_name in
  let memory := __init__ None default_retrieval_settings persist_directory in
  let memory := mkWorld (self memory) (disk memory) (banner ++ stdout memory) in
  (has <- has_vector_db ;;
   if negb has
   then ingest split_documents resolve fs (data_dir ++ "/repos/" ++ repo_name)
   else ret tt) memory.

(** ** [chat.py]: the streamed answer *)

(** [prefix in s] at the first position. *)
Fixpoint starts_with (prefix s : string) : bool :=
  match prefix with
  | EmptyString => true
  | String a prefix' =>
      match s with
      | EmptyString => false
      | String b s' => Ascii.eqb a b && starts_with prefix' s'
      end
  end.

(** [sub in s] *)
Fixpoint contains (sub s : string) : bool :=
  starts_with sub s
  || match s with
     | EmptyString => false
     | String _ s' => contains sub s'
     end.

(** [s.replace(old, new)] for a non-empty [old]: the occurrences are
    found from the left and do not overlap; [skip] counts the characters
    of an occurrence still to pass over. *)
Fixpoint replace_from (old new : string) (skip : nat) (s : string) : string :=
  match s with
  | EmptyString => EmptyString
  | String c s' =>
      match skip with
      | S k => replace_from old new k s'
      | O =>
          if starts_with old s
          then new ++ replace_from old new (String.length old - 1) s'
          else String c (replace_from old new 0 s')
      end
  end.

(** [s.replace("", new)] puts [new] before every character and at the
    end. *)
Fixpoint interleave (new s : string) : string :=
  match s with
  | EmptyString => new
  | String c s' => new ++ String c (interleave new s')
  end.

Definition py_replace (old new s : string) : string :=
  match old with
  | EmptyString => interleave new s
  | _ => replace_from old new 0 s
  end.

Definition format_reasoning_response (thinking_content : string) : string :=
  py_replace "</think>" "" (py_replace "<think>" "" thinking_content).

(** A streamed chunk; [chunk.content or ""] reads an absent or empty
    content as the empty string. *)
Record MessageChunk := mkChunk { content : option string }.

Definition content_or_empty (chunk : MessageChunk) : string :=
  match content chunk with
  | Some s => s
  | None => ""
  end.

(** What the two phases write on the page.  [StatusUpdated] is the call
    [status.update(label=..., state="complete", ...)]; [StatusCompleted]
    is what the [with st.status(...)] block does when it is left with the
    status still running: the state becomes complete and the label
    stays. *)
Inductive UIEvent :=
| StatusOpened (label : string)
| PlaceholderCreated
| PlaceholderMarkdown (text : string)
| StatusUpdated (label : string)
| StatusCompleted.

(** The loop of [process_thinking_phase].  The stream is the iterator
    [AbstractChatPipeline.query] returns, which [process_input] hands to
    both phases: the loop returns the text gathered, the events, and the
    chunks it left in the iterator.  (The assignment to [content] before
    the [break] is never read.) *)
Fixpoint thinking_loop (stream : list MessageChunk) (thinking_content : string)
    (ui : list UIEvent) : string * list UIEvent * list MessageChunk :=
  match stream with
  | [] => (thinking_content, ui, [])
  | chunk :: rest =>
      let content := content_or_empty chunk in
      let thinking_content := (thinking_content ++ content)%string in
      if contains "<think>" content then thinking_loop rest thinking_content ui
      else if contains "</think>" content
      then (thinking_content, ui ++ [StatusUpdated "Thinking complete!"], rest)
      else thinking_loop rest thinking_content
             (ui ++ [PlaceholderMarkdown (format_reasoning_response thinking_content)])
  end.

(** No [status.update] has set the state yet. *)
Definition status_running (ui : list UIEvent) : bool :=
  negb (List.existsb
          (fun e => match e with StatusUpdated _ => true | _ => false end) ui).

Definition process_thinking_phase (stream : list MessageChunk)
    : string * list UIEvent * list MessageChunk :=
  let '(thinking_content, ui, rest) :=
    thinking_loop stream "" [StatusOpened "Thinking..."; PlaceholderCreated] in
  (thinking_content,
   if status_running ui then ui ++ [StatusCompleted] else ui,
   rest).

(** The loop of [process_response_phase]. *)
Fixpoint response_loop (stream : list MessageChunk) (response_content : string)
    (ui : list UIEvent) : string * list UIEvent :=
  match stream with
  | [] => (response_content, ui)
  | chunk :: rest =>
      let response_content := (response_content ++ content_or_empty chunk)%string in
      response_loop rest response_content
        (ui ++ [PlaceholderMarkdown response_content])
  end.

Definition process_response_phase (stream : list MessageChunk) : string * list UIEvent :=
  response_loop stream "" [PlaceholderCreated].

(** The content [process_input] appends for the assistant:
    [thinking_content + response_content], the second phase reading what
    the first left in the stream. *)
Definition assistant_content (stream : list MessageChunk) : string :=
  let '(thinking_content, _, rest) := process_thinking_phase stream in
  let '(response_content, _) := process_response_phase rest in
  (thinking_content ++ response_content)%string.

(** All the text of a stream. *)
Fixpoint stream_text (stream : list MessageChunk) : string :=
  match stream with
  | [] => ""
  | chunk :: rest => (content_or_empty chunk ++ stream_text rest)%string
  end.

(** The chunk that ends the thinking phase: it holds the closing tag and
    not the opening one. *)
Definition ends_thinking (chunk : MessageChunk) : bool :=
  negb (contains "<think>" (content_or_empty chunk))
  && contains "</think>" (content_or_empty chunk).

(** ** More inputs to run the model on *)

(** The repository with a file that does not decode as UTF-8 under an
    eligible name, and with a script of a suffix [ingest] does not take. *)
Definition demo_fs_binary : Node :=
  Dir [("repo",
        Dir [("a.py", File (Some "def f(): return 1"));
             ("logo.txt", File None);
             ("run.sh", File (Some "echo hello"))])].

Definition testing_environ : Environ := mkEnviron None None None.

Definition demo_stream : list MessageChunk :=
  [mkChunk (Some "<think>"); mkChunk (Some "plan"); mkChunk None;
   mkChunk (Some "</think>"); mkChunk (Some "The "); mkChunk (Some "answer")].

(** * Properties *)

(** ** What the store holds after the loops of [update_files] *)

Lemma world_eta w : mkWorld (self w) (disk w) (stdout w) = w.
Proof. destruct w; reflexivity. Qed.

Lemma without_sources_nil docs : without_sources [] docs = docs.
Proof.
  unfold without_sources. induction docs as [|d docs IH]; [reflexivity|].
  cbn [List.filter in_sources List.existsb negb]. f_equal. exact IH.
Qed.

Lemma without_sources_cons s ss docs :
  without_sources ss (List.filter (fun d => negb (source_is s d)) docs)
  = without_sources (s :: ss) docs.
Proof.
  unfold without_sources. induction docs as [|d docs IH]; [reflexivity|].
  cbn [List.filter in_sources List.existsb].
  destruct (source_is s d); cbn [negb orb List.filter]; [exact IH|].
  fold (in_sources ss d).
  destruct (in_sources ss d); cbn [negb]; [exact IH|]. f_equal. exact IH.
Qed.

Lemma delete_loop_run vs rels w docs :
  disk w = ChromaStore docs ->
  for_each (fun rel_path => delete_where_source vs (str_rel rel_path)) rels w
  = (Ok tt, mkWorld (self w)
              (ChromaStore (without_sources (List.map str_rel rels) docs))
              (stdout w)).
Proof.
  revert w docs. induction rels as [|rel rels IH]; intros w docs Hd.
  - simpl. unfold ret. rewrite without_sources_nil, <- Hd, world_eta. reflexivity.
  - simpl. unfold bind, delete_where_source, with_collection.
    rewrite Hd. simpl. rewrite IH with (docs := List.filter (fun d => negb (source_is (str_rel rel) d)) docs)
      by reflexivity.
    simpl. now rewrite without_sources_cons.
Qed.

Lemma build_chain_run w vs choice :
  vector_store (self w) = Some vs ->
  search_choice (retrieval_settings (self w)) = Ok choice ->
  validate_search_type (fst choice) = Ok tt ->
  _build_chain w
  = (Ok tt,
     mkWorld (set_retriever (Some (as_retriever vs (fst choice) (snd choice))) (self w))
             (disk w) (stdout w)).
Proof.
  intros Hvs Hc Hv. unfold _build_chain, bind, gets, lift, modify.
  rewrite Hvs, Hc, Hv. reflexivity.
Qed.

(** What [search_choice] selects is ["mmr"], ["similarity"] or nothing,
    so the validator accepts it exactly when it is a strategy. *)
Lemma search_choice_strategy rs choice :
  search_choice rs = Ok choice ->
  match fst choice with
  | Some _ => validate_search_type (fst choice) = Ok tt
  | None => validate_search_type (fst choice) = Raise search_type_not_allowed
  end.
Proof.
  unfold search_choice, getitem. intros H.
  repeat match type of H with
         | context [match ?m !! ?k with _ => _ end] => destruct (m !! k)
         | context [if ?b then _ else _] => destruct b
         end; try discriminate; injection H as <-; reflexivity.
Qed.

Lemma retriever_builds_choice rs :
  retriever_builds rs = true ->
  exists choice,
    search_choice rs = Ok choice /\ validate_search_type (fst choice) = Ok tt.
Proof.
  unfold retriever_builds. destruct (search_choice rs) as [[[s|] kw]|] eqn:Hc;
    try discriminate.
  intros _. exists (Some s, kw). split; [reflexivity|].
  exact (search_choice_strategy rs _ Hc).
Qed.

Lemma build_chain_eq w :
  _build_chain w
  = match vector_store (self w) with
    | None =>
        (Raise (RuntimeError
                  "Vector store must be initialised before building the retriever."),
         w)
    | Some vs =>
        match search_choice (retrieval_settings (self w)) with
        | Ok choice =>
            match validate_search_type (fst choice) with
            | Ok _ =>
                (Ok tt,
                 mkWorld (set_retriever
                            (Some (as_retriever vs (fst choice) (snd choice)))
                            (self w))
                         (disk w) (stdout w))
            | Raise e => (Raise e, w)
            end
        | Raise e => (Raise e, w)
        end
    end.
Proof.
  unfold _build_chain, bind, gets, lift, modify, raise.
  destruct (vector_store (self w)); [|reflexivity].
  destruct (search_choice (retrieval_settings (self w))) as [choice|];
    [|reflexivity].
  destruct (validate_search_type (fst choice)); reflexivity.
Qed.

Lemma build_chain_frame w :
  disk (snd (_build_chain w)) = disk w
  /\ stdout (snd (_build_chain w)) = stdout w
  /\ vector_store (self (snd (_build_chain w))) = vector_store (self w)
  /\ _repo_root (self (snd (_build_chain w))) = _repo_root (self w)
  /\ retrieval_settings (self (snd (_build_chain w))) = retrieval_settings (self w)
  /\ include_ext (self (snd (_build_chain w))) = include_ext (self w).
Proof.
  rewrite build_chain_eq.
  destruct (vector_store (self w)) as [vs|] eqn:Hvs; simpl; [|tauto].
  destruct (search_choice (retrieval_settings (self w))) as [choice|]; simpl;
    [|tauto].
  destruct (validate_search_type (fst choice)); simpl; rewrite ?Hvs; tauto.
Qed.

Section UpdateRuns.

Variable split_documents : list Document -> list Document.
Variable resolve : string -> path.

Lemma update_files_run fs ps w vs root docs rels loaded :
  vector_store (self w) = Some vs ->
  _repo_root (self w) = Some root ->
  disk w = ChromaStore docs ->
  extend_each (normalise resolve (Some root)) ps = Ok rels ->
  extend_each (reload fs (Some root)) rels = Ok loaded ->
  update_files split_documents resolve fs ps w
  = let w1 :=
      mkWorld (self w)
        (ChromaStore (without_sources (List.map str_rel rels) docs
                        ++ added_chunks split_documents loaded))
        (stdout w) in
    if adds_nothing split_documents loaded
    then (Raise empty_upsert, w1)
    else _build_chain w1.
Proof.
  intros Hvs Hroot Hd Hn Hl. cbv zeta.
  unfold update_files, bind at 1. unfold gets at 1. rewrite Hvs.
  unfold bind at 1. unfold gets at 1. rewrite Hroot.
  unfold bind at 1. unfold lift at 1. rewrite Hn.
  unfold bind at 1. rewrite (delete_loop_run vs rels w docs Hd).
  unfold bind at 1. unfold lift at 1. rewrite Hl.
  unfold bind at 1, adds_nothing, added_chunks. destruct loaded as [|d loaded].
  - unfold ret. now rewrite app_nil_r.
  - unfold add_documents.
    destruct (make_chunks split_documents (d :: loaded)) as [|c chunks].
    + unfold raise. now rewrite app_nil_r.
    + unfold with_collection. reflexivity.
Qed.

End UpdateRuns.

(** ** Where the [source] of a chunk comes from *)

Lemma filter_all_true {A} (f : A -> bool) (l : list A) :
  (forall x, In x l -> f x = true) -> List.filter f l = l.
Proof.
  induction l as [|x l IH]; intros H; [reflexivity|].
  simpl. rewrite (H x (or_introl eq_refl)). f_equal.
  apply IH. intros y Hy. apply H. now right.
Qed.

Lemma filter_all_false {A} (f : A -> bool) (l : list A) :
  (forall x, In x l -> f x = false) -> List.filter f l = [].
Proof.
  induction l as [|x l IH]; intros H; [reflexivity|].
  simpl. rewrite (H x (or_introl eq_refl)).
  apply IH. intros y Hy. apply H. now right.
Qed.

Lemma extend_each_In {A B} (f : A -> result (list B)) l zs z :
  extend_each f l = Ok zs -> In z zs ->
  exists x ys, In x l /\ f x = Ok ys /\ In z ys.
Proof.
  revert zs. induction l as [|x l IH]; intros zs H Hz.
  - simpl in H. injection H as <-. destruct Hz.
  - simpl in H. destruct (f x) as [ys|e] eqn:Hfx; [|discriminate].
    destruct (extend_each f l) as [zs'|e] eqn:Hrest; [|discriminate].
    injection H as <-. apply in_app_or in Hz. destruct Hz as [Hz|Hz].
    + exists x, ys. split; [now left|]. split; assumption.
    + destruct (IH zs' eq_refl Hz) as (x' & ys' & Hin & Hf & Hz').
      exists x', ys'. split; [now right|]. split; assumption.
Qed.

Lemma load_single_file_source fs abs_path rel_path ds d :
  _load_single_file fs abs_path rel_path = Ok ds -> In d ds ->
  metadata d !! "source" = Some (PyStr (str_rel rel_path))
  /\ exists_ fs abs_path = true.
Proof.
  unfold _load_single_file, exists_. intros H Hd.
  destruct (lookup_path fs abs_path) as [[[text|]|]|]; try discriminate.
  injection H as <-. destruct Hd as [<-|[]]. simpl. split; [|reflexivity].
  apply lookup_insert_eq.
Qed.

Lemma reload_source fs root rel_path ds d :
  reload fs (Some root) rel_path = Ok ds -> In d ds ->
  metadata d !! "source" = Some (PyStr (str_rel rel_path))
  /\ exists_ fs (root ++ rel_path) = true.
Proof.
  unfold reload. intros H Hd.
  destruct (exists_ fs (root ++ rel_path)) eqn:He; simpl in H.
  - split; [|reflexivity].
    now destruct (load_single_file_source _ _ _ _ _ H Hd).
  - injection H as <-. destruct Hd.
Qed.

Lemma source_is_str s d :
  metadata d !! "source" = Some (PyStr s) -> source_is s d = true.
Proof. intros H. unfold source_is. rewrite H. simpl. apply String.eqb_refl. Qed.


Section Chunks.

Variable split_documents : list Document -> list Document.
Hypothesis Hsplit : preserves_source split_documents.

Lemma make_chunks_In docs c :
  In c (make_chunks split_documents docs) ->
  long_enough c = true
  /\ exists c0, In c0 (split_documents docs)
       /\ page_content c = page_content c0
       /\ metadata c
          = filter (fun kv => is_allowed_type (snd kv) = true) (metadata c0).
Proof.
  unfold make_chunks. intros H. apply filter_In in H as [H Hlong].
  split; [exact Hlong|]. unfold filter_complex_metadata in H.
  apply in_map_iff in H as (c0 & <- & Hc0). exists c0. simpl. auto.
Qed.


End Chunks.

Lemma without_sources_idem ss docs :
  without_sources ss (without_sources ss docs) = without_sources ss docs.
Proof.
  unfold without_sources. apply filter_all_true.
  intros d Hd. now apply filter_In in Hd.
Qed.

Lemma without_sources_app ss l1 l2 :
  without_sources ss (l1 ++ l2) = without_sources ss l1 ++ without_sources ss l2.
Proof. unfold without_sources. apply List.filter_app. Qed.

Section Update.

Variable split_documents : list Document -> list Document.
Variable resolve : string -> path.

(** A file that fails to load stops the call after the deletions. *)
Lemma update_files_load_fails fs ps w vs root docs rels e :
  vector_store (self w) = Some vs ->
  _repo_root (self w) = Some root ->
  disk w = ChromaStore docs ->
  extend_each (normalise resolve (Some root)) ps = Ok rels ->
  extend_each (reload fs (Some root)) rels = Raise e ->
  update_files split_documents resolve fs ps w
  = (Raise e,
     mkWorld (self w)
       (ChromaStore (without_sources (List.map str_rel rels) docs))
       (stdout w)).
Proof.
  intros Hvs Hroot Hd Hn Hl.
  unfold update_files, bind at 1. unfold gets at 1. rewrite Hvs.
  unfold bind at 1. unfold gets at 1. rewrite Hroot.
  unfold bind at 1. unfold lift at 1. rewrite Hn.
  unfold bind at 1. rewrite (delete_loop_run vs rels w docs Hd).
  unfold bind at 1. unfold lift at 1. rewrite Hl. reflexivity.
Qed.

Lemma update_files_world fs ps w vs root docs rels :
  vector_store (self w) = Some vs ->
  _repo_root (self w) = Some root ->
  disk w = ChromaStore docs ->
  extend_each (normalise resolve (Some root)) ps = Ok rels ->
  let w' := snd (update_files split_documents resolve fs ps w) in
  disk w' = ChromaStore (without_sources (List.map str_rel rels) docs
                           ++ reloaded_chunks split_documents fs root rels)
  /\ vector_store (self w') = Some vs
  /\ _repo_root (self w') = Some root
  /\ retrieval_settings (self w') = retrieval_settings (self w).
Proof.
  intros Hvs Hroot Hd Hn. unfold reloaded_chunks.
  destruct (extend_each (reload fs (Some root)) rels) as [loaded|e] eqn:Hl.
  - cbv zeta.
    rewrite (update_files_run split_documents resolve fs ps w vs root docs rels loaded)
      by assumption.
    cbv zeta. destruct (adds_nothing split_documents loaded); [simpl; auto|].
    match goal with |- context [_build_chain ?w0] =>
      destruct (build_chain_frame w0) as (H1 & _ & H3 & H4 & H5 & _) end.
    rewrite H1, H3, H4, H5. simpl. auto.
  - cbv zeta.
    rewrite (update_files_load_fails fs ps w vs root docs rels e) by assumption.
    simpl. rewrite app_nil_r. auto.
Qed.

Hypothesis Hsplit : preserves_source split_documents.

(** Every chunk of reloaded documents carries the [source] of one of the
    normalised paths. *)
Lemma added_chunks_in_sources fs root rels loaded c :
  extend_each (reload fs (Some root)) rels = Ok loaded ->
  In c (added_chunks split_documents loaded) ->
  in_sources (List.map str_rel rels) c = true.
Proof.
  intros Hl Hc. unfold added_chunks in Hc.
  assert (Hc' : In c (make_chunks split_documents loaded))
    by (destruct loaded; [destruct Hc|exact Hc]).
  apply (make_chunks_In split_documents) in Hc' as (_ & c0 & Hc0 & _ & Hm).
  destruct (Hsplit loaded c0 Hc0) as (d & Hd & Hsrc).
  destruct (extend_each_In _ _ _ _ Hl Hd) as (rel & ys & Hrel & Hre & Hdy).
  destruct (reload_source _ _ _ _ _ Hre Hdy) as (Hds & _).
  unfold in_sources. apply existsb_exists. exists (str_rel rel).
  split; [now apply in_map|]. apply source_is_str. rewrite Hm.
  apply map_lookup_filter_Some. split; [|reflexivity]. now rewrite Hsrc.
Qed.

Lemma reloaded_chunks_in_sources fs root rels c :
  In c (reloaded_chunks split_documents fs root rels) ->
  in_sources (List.map str_rel rels) c = true.
Proof.
  unfold reloaded_chunks.
  destruct (extend_each (reload fs (Some root)) rels) as [loaded|] eqn:Hl;
    [|intros []].
  now apply added_chunks_in_sources with (fs := fs) (root := root).
Qed.

(** C1: [update_files] deletes the documents tagged with any of the
    normalised paths before it adds chunks, so after two calls in a row on
    the same paths, the second of which could reload its files, the
    documents of the store tagged with one of these paths are exactly the
    chunks made at the second call from the files as they were then (for
    one file: its second chunking), and the documents of every other
    source are those the store held before the two calls.  The first call
    may have found the files in any state (present, changed, unreadable or
    missing). *)
Theorem update_twice_one_generation fs1 fs2 ps w vs root docs rels loaded :
  vector_store (self w) = Some vs ->
  _repo_root (self w) = Some root ->
  disk w = ChromaStore docs ->
  extend_each (normalise resolve (Some root)) ps = Ok rels ->
  extend_each (reload fs2 (Some root)) rels = Ok loaded ->
  let w1 := snd (update_files split_documents resolve fs1 ps w) in
  let w2 := snd (update_files split_documents resolve fs2 ps w1) in
  let sources := List.map str_rel rels in
  exists docs2,
    disk w2 = ChromaStore docs2
    /\ List.filter (in_sources sources) docs2
       = added_chunks split_documents loaded
    /\ without_sources sources docs2 = without_sources sources docs.
Proof.
  intros Hvs Hroot Hd Hn Hl w1 w2 sources.
  destruct (update_files_world fs1 ps w vs root docs rels Hvs Hroot Hd Hn)
    as (Hd1 & Hvs1 & Hroot1 & _).
  fold w1 in Hd1, Hvs1, Hroot1.
  destruct (update_files_world fs2 ps w1 vs root _ rels Hvs1 Hroot1 Hd1 Hn)
    as (Hd2 & _).
  fold w2 sources in Hd2. fold sources in Hd1.
  assert (Hold : forall l, List.filter (in_sources sources) (without_sources sources l) = []).
  { intros l. apply filter_all_false. intros d Hin. unfold without_sources in Hin.
    apply filter_In in Hin as [_ Hin]. now destruct (in_sources sources d). }
  assert (Hnew : forall l : list Document,
    (forall c, In c l -> in_sources sources c = true) ->
    without_sources sources l = [] /\ List.filter (in_sources sources) l = l).
  { intros l Hl'. split.
    - unfold without_sources. apply filter_all_false. intros c Hc.
      now rewrite (Hl' c Hc).
    - now apply filter_all_true. }
  destruct (Hnew (reloaded_chunks split_documents fs1 root rels)
              (reloaded_chunks_in_sources fs1 root rels)) as (Hgone1 & _).
  assert (Hadded2 : reloaded_chunks split_documents fs2 root rels
                    = added_chunks split_documents loaded)
    by (unfold reloaded_chunks; now rewrite Hl).
  destruct (Hnew (added_chunks split_documents loaded)
              (fun c => added_chunks_in_sources fs2 root rels loaded c Hl))
    as (Hgone2 & Hkept2).
  eexists. split; [exact Hd2|].
  rewrite without_sources_app, Hgone1, app_nil_r, without_sources_idem, Hadded2.
  split.
  - now rewrite List.filter_app, Hold, Hkept2.
  - now rewrite without_sources_app, without_sources_idem, Hgone2, app_nil_r.
Qed.

End Update.

(** ** Deleted files and paths outside the repository *)

Section UpdatePaths.

Variable split_documents : list Document -> list Document.
Variable resolve : string -> path.


(** The first path outside the root stops the normalising loop. *)
Lemma normalise_all_outside root ps :
  List.Exists (fun p => relative_to (resolve p) root = None) ps ->
  exists p, In p ps /\ relative_to (resolve p) root = None
    /\ extend_each (normalise resolve (Some root)) ps
       = Raise (ValueError (str_abs (resolve p)
                              ++ " is outside the ingested repository root")).
Proof.
  induction ps as [|q ps IH]; intros H; [inversion H|].
  destruct (relative_to (resolve q) root) as [r|] eqn:Hq.
  - assert (Hrest : List.Exists (fun p => relative_to (resolve p) root = None) ps).
    { inversion H as [? ? Hq'|? ? Hrest']; subst; [congruence|exact Hrest']. }
    destruct (IH Hrest) as (p & Hin & Hp & Hrun). exists p.
    split; [now right|]. split; [exact Hp|].
    cbn [extend_each]. unfold normalise at 1. rewrite Hq, Hrun. reflexivity.
  - exists q. split; [now left|]. split; [exact Hq|].
    cbn [extend_each]. unfold normalise at 1. rewrite Hq. reflexivity.
Qed.

(** C7: when the store is loaded and a repository root is remembered,
    a call of [update_files] in which some path resolves outside that
    root raises the [ValueError] naming such a path (the first one in
    argument order), and leaves the object, the persisted collection and
    the output as they were: nothing was deleted or added. *)
Theorem update_out_of_scope fs ps w vs root :
  vector_store (self w) = Some vs ->
  _repo_root (self w) = Some root ->
  List.Exists (fun p => relative_to (resolve p) root = None) ps ->
  exists p,
    In p ps
    /\ relative_to (resolve p) root = None
    /\ update_files split_documents resolve fs ps w
       = (Raise (ValueError (str_abs (resolve p)
                               ++ " is outside the ingested repository root")),
          w).
Proof.
  intros Hvs Hroot Hout.
  destruct (normalise_all_outside root ps Hout) as (p & Hin & Hp & Hrun).
  exists p. split; [exact Hin|]. split; [exact Hp|].
  unfold update_files, bind at 1. unfold gets at 1. rewrite Hvs.
  unfold bind at 1. unfold gets at 1. rewrite Hroot.
  unfold bind at 1. unfold lift at 1. rewrite Hrun. reflexivity.
Qed.

Hypothesis Hsplit : preserves_source split_documents.


End UpdatePaths.

(** ** Reasoning along a method: invariants and excluded exceptions *)

Section Safe.

Variable Inv : World -> Prop.
Variable Bad : exn -> Prop.

Lemma safe_bind {A B} (c : M A) (k : A -> M B) :
  safe Inv Bad c -> (forall a, safe Inv Bad (k a)) -> safe Inv Bad (bind c k).
Proof.
  intros Hc Hk w Hw. unfold bind. specialize (Hc w Hw).
  destruct (c w) as [[a|e] w'] eqn:Hcw; simpl in Hc.
  - apply Hk. apply Hc.
  - simpl. split; [apply Hc|]. intros e' He'. injection He' as <-.
    now apply Hc.
Qed.

Lemma safe_ret {A} (a : A) : safe Inv Bad (ret a).
Proof. intros w Hw. simpl. split; [exact Hw|discriminate]. Qed.

Lemma safe_gets {A} (f : CodeMemoryPipeline -> A) : safe Inv Bad (gets f).
Proof. intros w Hw. simpl. split; [exact Hw|discriminate]. Qed.

Lemma safe_lift {A} (r : result A) :
  (forall e, r = Raise e -> ~ Bad e) -> safe Inv Bad (lift r).
Proof. intros Hr w Hw. simpl. split; [exact Hw|exact Hr]. Qed.

Lemma safe_raise {A} (e : exn) : ~ Bad e -> safe Inv Bad (@raise A e).
Proof.
  intros He w Hw. simpl. split; [exact Hw|]. intros e' H. now injection H as <-.
Qed.

Lemma safe_for_each {A} (body : A -> M unit) (l : list A) :
  (forall x, safe Inv Bad (body x)) -> safe Inv Bad (for_each body l).
Proof.
  intros Hb. induction l as [|x l IH]; simpl.
  - apply safe_ret.
  - apply safe_bind; [apply Hb|intros _; exact IH].
Qed.

Hypothesis Bad_not_store : forall m, ~ Bad (ChromaError m).

Lemma safe_with_collection f :
  (forall w docs, Inv w -> collection (disk w) = Ok docs ->
     Inv (mkWorld (self w) (ChromaStore (f docs)) (stdout w))) ->
  safe Inv Bad (with_collection f).
Proof.
  intros Hf w Hw. unfold with_collection.
  destruct (collection (disk w)) as [docs|e] eqn:Hc; simpl.
  - split; [now apply Hf|discriminate].
  - split; [exact Hw|]. intros e' H. injection H as <-.
    destruct (disk w); simpl in Hc; try discriminate;
      injection Hc as <-; apply Bad_not_store.
Qed.

Lemma safe_add_documents vs chunks :
  ~ Bad empty_upsert ->
  (forall w docs, Inv w -> collection (disk w) = Ok docs ->
     Inv (mkWorld (self w) (ChromaStore (docs ++ chunks)) (stdout w))) ->
  safe Inv Bad (add_documents vs chunks).
Proof.
  intros Hempty Hadd. unfold add_documents. destruct chunks as [|c chunks].
  - now apply safe_raise.
  - now apply safe_with_collection.
Qed.

Hypothesis Bad_not_key : forall k, ~ Bad (KeyError k).
Hypothesis Bad_not_build :
  ~ Bad (RuntimeError
           "Vector store must be initialised before building the retriever.").
Hypothesis Bad_not_validation : ~ Bad search_type_not_allowed.
Hypothesis Inv_set_retriever :
  forall w r, Inv w -> Inv (mkWorld (set_retriever r (self w)) (disk w) (stdout w)).

Lemma search_choice_raises rs e :
  search_choice rs = Raise e -> exists k, e = KeyError k.
Proof.
  unfold search_choice, getitem. intros H.
  repeat match type of H with
         | context [match ?m !! ?k with _ => _ end] =>
             destruct (m !! k)
         | context [if ?b then _ else _] => destruct b
         end; try discriminate; injection H as <-; eauto.
Qed.

Lemma safe_build_chain : safe Inv Bad _build_chain.
Proof.
  intros w Hw. rewrite build_chain_eq.
  destruct (vector_store (self w)) as [vs|].
  - destruct (search_choice (retrieval_settings (self w))) as [c|e] eqn:Hc; simpl.
    + pose proof (search_choice_strategy _ _ Hc) as Hv.
      destruct (fst c); rewrite Hv; simpl.
      * split; [now apply Inv_set_retriever|discriminate].
      * split; [exact Hw|]. intros e' H. injection H as <-.
        exact Bad_not_validation.
    + split; [exact Hw|]. intros e' H. injection H as <-.
      destruct (search_choice_raises _ _ Hc) as (k & ->). apply Bad_not_key.
  - simpl. split; [exact Hw|]. intros e' H. injection H as <-.
    exact Bad_not_build.
Qed.

End Safe.

(** ** Only long enough chunks reach the store *)

Section ChunkLength.

Variable split_documents : list Document -> list Document.
Variable resolve : string -> path.

Lemma make_chunks_long docs c :
  In c (make_chunks split_documents docs) ->
  (3 < String.length (strip (page_content c)))%nat.
Proof.
  unfold make_chunks. intros H. apply filter_In in H as [_ H].
  unfold long_enough in H. now apply Nat.ltb_lt in H.
Qed.

Lemma only_long_added_refl w : only_long_added w w.
Proof. intros d Hd. now left. Qed.

Lemma only_long_same_disk w0 w f out :
  only_long_added w0 w -> only_long_added w0 (mkWorld f (disk w) out).
Proof. intros H d Hd. apply H. exact Hd. Qed.

Lemma safe_delete w0 vs s :
  safe (only_long_added w0) (fun _ => False) (delete_where_source vs s).
Proof.
  apply safe_with_collection; [tauto|]. intros w docs Hw Hc d Hd.
  unfold stored in Hd. simpl in Hd. apply filter_In in Hd as [Hd _].
  apply Hw. unfold stored. rewrite Hc. exact Hd.
Qed.

Lemma safe_add w0 vs docs :
  safe (only_long_added w0) (fun _ => False)
    (add_documents vs (make_chunks split_documents docs)).
Proof.
  apply safe_add_documents; [tauto|tauto|]. intros w old Hw Hc d Hd.
  unfold stored in Hd. simpl in Hd. apply in_app_or in Hd as [Hd|Hd].
  - apply Hw. unfold stored. rewrite Hc. exact Hd.
  - right. eapply make_chunks_long. exact Hd.
Qed.

Lemma safe_open w0 : safe (only_long_added w0) (fun _ => False) Chroma_open.
Proof.
  unfold Chroma_open. apply safe_bind; [|intros; apply safe_ret].
  apply safe_with_collection; [tauto|]. intros w old Hw Hc d Hd.
  apply Hw. unfold stored in *. simpl in Hd. rewrite Hc. exact Hd.
Qed.

Lemma safe_modify w0 f : safe (only_long_added w0) (fun _ => False) (modify f).
Proof.
  intros w Hw. simpl. split; [|discriminate]. now apply only_long_same_disk.
Qed.

Lemma safe_build w0 : safe (only_long_added w0) (fun _ => False) _build_chain.
Proof.
  apply safe_build_chain; try tauto.
Qed.

(** C6: whatever [ingest] and [update_files] do, and whether they
    return or raise, every document the persisted collection holds
    afterwards that it did not hold before has a stripped content of
    more than three characters: the chunks of three characters or fewer
    are dropped before anything is handed to the store. *)
Theorem only_long_chunks_are_added fs repo_path ps w :
  only_long_added w (snd (ingest split_documents resolve fs repo_path w))
  /\ only_long_added w (snd (update_files split_documents resolve fs ps w)).
Proof.
  split.
  - enough (H : safe (only_long_added w) (fun _ => False)
                  (ingest split_documents resolve fs repo_path))
      by exact (proj1 (H w (only_long_added_refl w))).
    unfold ingest. destruct (negb (exists_ fs (resolve repo_path))).
    + apply safe_raise. tauto.
    + apply safe_bind; [apply safe_modify|intros _].
      apply safe_bind; [apply safe_gets|intros exts].
      apply safe_bind; [apply safe_lift; tauto|intros docs].
      apply safe_bind; [|intros vs].
      * unfold Chroma_from_documents.
        apply safe_bind; [apply safe_open|intros vs].
        apply safe_bind; [apply safe_add|intros _]. apply safe_ret.
      * apply safe_bind; [apply safe_modify|intros _]. apply safe_build.
  - enough (H : safe (only_long_added w) (fun _ => False)
                  (update_files split_documents resolve fs ps))
      by exact (proj1 (H w (only_long_added_refl w))).
    unfold update_files.
    apply safe_bind; [apply safe_gets|intros [vs|]]; [|apply safe_raise; tauto].
    apply safe_bind; [apply safe_gets|intros root].
    apply safe_bind; [apply safe_lift; tauto|intros normalised].
    apply safe_bind; [apply safe_for_each; intros; apply safe_delete|intros _].
    apply safe_bind; [apply safe_lift; tauto|intros docs].
    apply safe_bind; [|intros _; apply safe_build].
    destruct docs; [apply safe_ret|apply safe_add].
Qed.

End ChunkLength.

(** ** [ingest], outcome by outcome *)

Section Ingest.

Variable split_documents : list Document -> list Document.
Variable resolve : string -> path.

Lemma ingest_eq fs repo_path w :
  ingest split_documents resolve fs repo_path w
  = let root := resolve repo_path in
    if negb (exists_ fs root)
    then (Raise (FileNotFoundError (str_abs root ++ " does not exist")), w)
    else
      match _load_repo (include_ext (self w)) fs root with
      | Raise e => (Raise e, with_repo_root root w)
      | Ok docs =>
          match collection (disk w) with
          | Raise e => (Raise e, with_repo_root root w)
          | Ok old =>
              match make_chunks split_documents docs with
              | [] =>
                  (Raise empty_upsert,
                   mkWorld (set_repo_root (Some root) (self w)) (ChromaStore old)
                     (stdout w))
              | _ :: _ =>
                  let self' :=
                    set_vector_store (Some ChromaClient)
                      (set_repo_root (Some root) (self w)) in
                  let disk' :=
                    ChromaStore (old ++ make_chunks split_documents docs) in
                  match search_choice (retrieval_settings (self w)) with
                  | Raise e => (Raise e, mkWorld self' disk' (stdout w))
                  | Ok choice =>
                      match validate_search_type (fst choice) with
                      | Raise e => (Raise e, mkWorld self' disk' (stdout w))
                      | Ok _ =>
                          (Ok tt,
                           mkWorld
                             (set_retriever
                                (Some (as_retriever ChromaClient (fst choice)
                                         (snd choice)))
                                self')
                             disk' (stdout w))
                      end
                  end
              end
          end
      end.
Proof.
  unfold ingest. cbv zeta. destruct (negb (exists_ fs (resolve repo_path)));
    [reflexivity|].
  unfold bind at 1. unfold modify at 1.
  unfold bind at 1. unfold gets at 1.
  unfold bind at 1. unfold lift at 1. cbn [self disk stdout set_repo_root include_ext].
  destruct (_load_repo (include_ext (self w)) fs (resolve repo_path)) as [docs|e];
    [|reflexivity].
  unfold bind at 1, Chroma_from_documents, Chroma_open, add_documents,
    with_collection, bind, ret. cbn [self disk stdout].
  destruct (collection (disk w)) as [old|e]; [|reflexivity].
  destruct (make_chunks split_documents docs) as [|c chunks]; [reflexivity|].
  cbn [collection self disk stdout]. unfold modify at 1. rewrite build_chain_eq.
  cbn [self disk stdout set_vector_store vector_store retrieval_settings
       set_repo_root].
  destruct (search_choice (retrieval_settings (self w))) as [choice|];
    [|reflexivity].
  destruct (validate_search_type (fst choice)); reflexivity.
Qed.

End Ingest.

(** ** The guard of [update_files] *)

Section Guard.

Variable split_documents : list Document -> list Document.
Variable resolve : string -> path.

Lemma normalise_all_raises root ps e :
  extend_each (normalise resolve root) ps = Raise e ->
  e = TypeError \/ exists m, e = ValueError m.
Proof.
  induction ps as [|p ps IH]; intros H; [discriminate|].
  cbn [extend_each] in H.
  destruct (normalise resolve root p) as [ys|e'] eqn:Hp.
  - destruct (extend_each (normalise resolve root) ps); [discriminate|].
    injection H as <-. now apply IH.
  - injection H as <-. unfold normalise in Hp. destruct root as [root|].
    + destruct (relative_to (resolve p) root); [discriminate|].
      injection Hp as <-. right. eauto.
    + injection Hp as <-. now left.
Qed.

Lemma reload_all_raises fs root rels e :
  extend_each (reload fs root) rels = Raise e ->
  e = TypeError \/ exists m, e = RuntimeError ("Error loading " ++ m).
Proof.
  induction rels as [|rel rels IH]; intros H; [discriminate|].
  cbn [extend_each] in H.
  destruct (reload fs root rel) as [ys|e'] eqn:Hr.
  - destruct (extend_each (reload fs root) rels); [discriminate|].
    injection H as <-. now apply IH.
  - injection H as <-. unfold reload in Hr. destruct root as [root|].
    + destruct (negb (exists_ fs (root ++ rel))); [discriminate|].
      unfold _load_single_file in Hr.
      destruct (lookup_path fs (root ++ rel)) as [[[text|]|]|];
        try discriminate; injection Hr as <-; right; eauto.
    + injection Hr as <-. now left.
Qed.

(** Once a store handle is there, [update_files] keeps it and never
    raises the error of its guard. *)
Lemma update_files_passes_guard fs ps w vs :
  vector_store (self w) = Some vs ->
  fst (update_files split_documents resolve fs ps w) <> Raise not_ingested.
Proof.
  intros Hvs. unfold update_files, bind at 1. unfold gets at 1. rewrite Hvs.
  match goal with |- fst (?c w) <> _ =>
    enough (H : safe (fun w => vector_store (self w) = Some vs)
                  (fun e => e = not_ingested) c)
  end.
  { intros Hr. exact (proj2 (H w Hvs) _ Hr eq_refl). }
  assert (Hstore : forall f,
    safe (fun w => vector_store (self w) = Some vs) (fun e => e = not_ingested)
         (with_collection f)).
  { intros f. apply safe_with_collection; [discriminate|]. intros; assumption. }
  apply safe_bind; [apply safe_gets|intros root].
  apply safe_bind; [|intros normalised].
  { apply safe_lift. intros e He.
    destruct (normalise_all_raises _ _ _ He) as [->|(m & ->)]; discriminate. }
  apply safe_bind; [apply safe_for_each; intros; apply Hstore|intros _].
  apply safe_bind; [|intros docs].
  { apply safe_lift. intros e He.
    destruct (reload_all_raises _ _ _ _ He) as [->|(m & ->)]; discriminate. }
  apply safe_bind; [|intros _].
  { destruct docs; [apply safe_ret|].
    apply safe_add_documents; [discriminate|discriminate|]. intros; assumption. }
  apply safe_build_chain; [discriminate|discriminate|discriminate|].
  intros; assumption.
Qed.

(** What a call of [ingest] that returns leaves in the object. *)
Lemma ingest_ok_state fs repo_path w w' :
  ingest split_documents resolve fs repo_path w = (Ok tt, w') ->
  exists vs choice,
    vector_store (self w') = Some vs
    /\ _repo_root (self w') = Some (resolve repo_path)
    /\ retrieval_settings (self w') = retrieval_settings (self w)
    /\ search_choice (retrieval_settings (self w)) = Ok choice
    /\ retriever (self w') = Some (as_retriever vs (fst choice) (snd choice)).
Proof.
  rewrite ingest_eq. cbv zeta.
  destruct (negb (exists_ fs (resolve repo_path))); [discriminate|].
  destruct (_load_repo _ fs (resolve repo_path)) as [docs|]; [|discriminate].
  destruct (collection (disk w)) as [old|]; [|discriminate].
  destruct (make_chunks split_documents docs); [discriminate|].
  destruct (search_choice (retrieval_settings (self w))) as [choice|];
    [|discriminate].
  destruct (validate_search_type (fst choice)); [|discriminate].
  intros H. injection H as <-. exists ChromaClient, choice. cbn. auto.
Qed.

(** C3, as the code has it: the guard of [update_files] is on the store
    handle.  While no store is loaded the call raises the error that
    asks for [ingest] first and changes nothing; after any call of
    [ingest] that returns, no call of [update_files] raises it. *)
Theorem update_needs_loaded_store fs ps w :
  vector_store (self w) = None ->
  update_files split_documents resolve fs ps w = (Raise not_ingested, w)
  /\ forall fs1 repo_path w1,
       ingest split_documents resolve fs1 repo_path w = (Ok tt, w1) ->
       forall fs2 ps2,
         fst (update_files split_documents resolve fs2 ps2 w1)
         <> Raise not_ingested.
Proof.
  intros Hvs. split.
  - unfold update_files, bind, gets. rewrite Hvs. reflexivity.
  - intros fs1 repo_path w1 Hing fs2 ps2.
    destruct (ingest_ok_state _ _ _ _ Hing) as (vs & _ & Hvs1 & _).
    now apply update_files_passes_guard with (vs := vs).
Qed.

End Guard.

(** ** The walk of [_load_repo] *)

(** A directory entry adds no document, ignored or not: the [continue]
    of the loop changes nothing. *)
Lemma load_entry_dir exts fs root rel entries :
  load_entry exts fs root (rel, Dir entries) = Ok [].
Proof.
  unfold load_entry. cbn [is_dir is_file andb].
  destruct (bool_decide (name rel ∈ ignore_dirs)); reflexivity.
Qed.

(** A file entry is loaded according to its own suffix alone; the
    directories on its path are not looked at. *)
Lemma load_entry_file exts fs root rel content :
  load_entry exts fs root (rel, File content)
  = if bool_decide (lower (suffix rel) ∈ exts)
    then _load_single_file fs (root ++ rel) rel
    else Ok [].
Proof. reflexivity. Qed.

Lemma find_entry_In nm entries n :
  find_entry nm entries = Some n -> In (nm, n) entries.
Proof.
  induction entries as [|[k c] entries IH]; simpl; [discriminate|].
  destruct (String.eqb k nm) eqn:Hk.
  - intros [= ->]. apply String.eqb_eq in Hk as ->. now left.
  - intros H. right. now apply IH.
Qed.

(** The walk reaches every node below its starting point. *)
Lemma rglob_complete rel :
  forall n m, rel <> [] -> lookup_path n rel = Some m -> In (rel, m) (rglob n).
Proof.
  induction rel as [|x rel IH]; intros n m Hne Hm; [contradiction|].
  destruct n as [content|entries]; [discriminate|].
  cbn [lookup_path] in Hm.
  destruct (find_entry x entries) as [c|] eqn:Hx; [|discriminate].
  apply find_entry_In in Hx. cbn [rglob]. apply in_or_app.
  destruct rel as [|y rel].
  - left. injection Hm as <-. apply in_map_iff. exists (x, c). auto.
  - right. assert (Hbelow : In (y :: rel, m) (rglob c)) by (apply IH; easy).
    clear -Hx Hbelow. induction entries as [|[k c'] entries IHe]; [destruct Hx|].
    apply in_or_app. destruct Hx as [[= -> ->]|Hx].
    + left. apply in_map_iff. exists (y :: rel, m). auto.
    + right. now apply IHe.
Qed.

Lemma extend_each_incl {A B} (f : A -> result (list B)) l zs x ys :
  extend_each f l = Ok zs -> In x l -> f x = Ok ys -> incl ys zs.
Proof.
  revert zs. induction l as [|a l IH]; intros zs H Hx Hfx; [destruct Hx|].
  simpl in H. destruct (f a) as [ys'|] eqn:Hfa; [|discriminate].
  destruct (extend_each f l) as [zs'|]; [|discriminate]. injection H as <-.
  destruct Hx as [->|Hx].
  - rewrite Hfx in Hfa. injection Hfa as <-. now apply incl_appl.
  - apply incl_appr. now apply IH.
Qed.

Lemma lookup_path_app p : forall fs q n,
  lookup_path fs p = Some n -> lookup_path fs (p ++ q) = lookup_path n q.
Proof.
  induction p as [|x p IH]; intros fs q n H.
  - injection H as <-. reflexivity.
  - destruct fs as [content|entries]; [discriminate|]. cbn [lookup_path app] in *.
    destruct (find_entry x entries); [|discriminate]. now apply IH.
Qed.

(** When [_load_repo] returns, it has loaded every readable file below
    the root whose suffix is eligible, whatever the names of the
    directories on its path. *)
Lemma load_repo_loads_every_eligible_file exts fs root node docs rel text :
  _load_repo exts fs root = Ok docs ->
  lookup_path fs root = Some node ->
  lookup_path node rel = Some (File (Some text)) ->
  rel <> [] ->
  lower (suffix rel) ∈ exts ->
  In (loaded_document text (str_abs (root ++ rel)) (str_rel rel)) docs.
Proof.
  intros Hrun Hroot Hnode Hne Hext. unfold _load_repo in Hrun.
  rewrite Hroot in Hrun.
  assert (Hfile : lookup_path fs (root ++ rel) = Some (File (Some text)))
    by now rewrite (lookup_path_app root fs rel node Hroot).
  apply (extend_each_incl _ _ _ (rel, File (Some text))
           [loaded_document text (str_abs (root ++ rel)) (str_rel rel)] Hrun).
  - now apply rglob_complete.
  - rewrite load_entry_file, bool_decide_eq_true_2 by exact Hext.
    unfold _load_single_file. rewrite Hfile. reflexivity.
  - now left.
Qed.

(** ** [clear] *)

(** C8: [clear] returns normally; afterwards the store handle, the
    retriever and the remembered root are [None], and the content of the
    persist directory, the settings, the eligible extensions and the
    output are what they were.  (It also sets [self.chain] to [None].) *)
Theorem clear_keeps_persisted_store w :
  exists w',
    clear w = (Ok tt, w')
    /\ vector_store (self w') = None
    /\ retriever (self w') = None
    /\ _repo_root (self w') = None
    /\ chain (self w') = ChainNone
    /\ disk w' = disk w
    /\ retrieval_settings (self w') = retrieval_settings (self w)
    /\ include_ext (self w') = include_ext (self w)
    /\ stdout w' = stdout w.
Proof.
  eexists. split; [reflexivity|]. cbn. repeat split.
Qed.

(** By contrast [clear_vector_db] empties the directory. *)
Lemma clear_vector_db_empties_directory w :
  dir_nonempty (disk (snd (clear_vector_db w))) = false
  /\ stored (snd (clear_vector_db w)) = [].
Proof. unfold stored. cbn. destruct (disk w); split; reflexivity. Qed.

(** ** Construction over a persist directory that cannot be restored *)


Section FailedRestore.

Variable split_documents : list Document -> list Document.
Variable resolve : string -> path.



End FailedRestore.

(** ** Retrieval settings *)

Lemma py_eq_str_true v s : py_eq_str v s = true <-> v = PyStr s.
Proof.
  destruct v; simpl; try (split; [discriminate|intros H; discriminate H]).
  rewrite String.eqb_eq. split; [now intros ->|now intros [= ->]].
Qed.

Lemma py_eq_str_false v s : v <> PyStr s -> py_eq_str v s = false.
Proof.
  intros H. destruct (py_eq_str v s) eqn:He; [|reflexivity].
  apply py_eq_str_true in He. contradiction.
Qed.

(** C4, as the code has it: with a store loaded, [_build_chain] hands
    [as_retriever]
    - for the tag ["mmr"]: the strategy ["mmr"] and a dictionary whose keys
      are exactly [k], [fetch_k] and [lambda_mult], with the values of the
      settings;
    - for the tag ["similarity"]: the strategy ["similarity"] and a
      dictionary whose only key is [k], so neither [fetch_k] nor
      [lambda_mult] is passed, whatever the settings hold for them;
    and in both cases the retriever is the only attribute that changes.
    For any other tag it hands [as_retriever] no strategy and no
    dictionary, which [as_retriever] refuses: the call raises and the
    object keeps the retriever it had, so no retriever on the store's
    default search is built. *)
Theorem build_chain_passes_strategy_parameters w vs :
  vector_store (self w) = Some vs ->
  let rs := retrieval_settings (self w) in
  let built search_type search_kwargs :=
    _build_chain w
    = (Ok tt,
       mkWorld (set_retriever
                  (Some (as_retriever vs search_type search_kwargs)) (self w))
               (disk w) (stdout w)) in
  (forall k fetch_k lambda_mult,
      rs !! "ret_strat" = Some (PyStr "mmr") ->
      rs !! "k" = Some k ->
      rs !! "fetch_k" = Some fetch_k ->
      rs !! "lambda_mult" = Some lambda_mult ->
      exists kwargs : gmap string PyVal,
        built (Some "mmr") (Some kwargs)
        /\ dom kwargs = {[ "k"; "fetch_k"; "lambda_mult" ]}
        /\ kwargs !! "k" = Some k
        /\ kwargs !! "fetch_k" = Some fetch_k
        /\ kwargs !! "lambda_mult" = Some lambda_mult)
  /\ (forall k,
      rs !! "ret_strat" = Some (PyStr "similarity") ->
      rs !! "k" = Some k ->
      exists kwargs : gmap string PyVal,
        built (Some "similarity") (Some kwargs)
        /\ dom kwargs = {[ "k" ]}
        /\ kwargs !! "k" = Some k
        /\ kwargs !! "fetch_k" = None
        /\ kwargs !! "lambda_mult" = None)
  /\ (forall tag,
      rs !! "ret_strat" = Some tag ->
      tag <> PyStr "mmr" ->
      tag <> PyStr "similarity" ->
      search_choice rs = Ok (None, None)
      /\ _build_chain w = (Raise search_type_not_allowed, w)).
Proof.
  intros Hvs rs built. subst built. cbv beta. split; [|split].
  - intros k fetch_k lambda_mult Ht Hk Hf Hl.
    eexists. split.
    + rewrite build_chain_eq, Hvs. fold rs. unfold search_choice, getitem.
      rewrite Ht, Hk, Hf, Hl. cbn. reflexivity.
    + split; [|split; [|split]].
      * rewrite !dom_insert_L, dom_empty_L. set_solver.
      * now rewrite lookup_insert_eq.
      * rewrite lookup_insert_ne by discriminate. now rewrite lookup_insert_eq.
      * rewrite !lookup_insert_ne by discriminate. now rewrite lookup_insert_eq.
  - intros k Ht Hk. eexists. split.
    + rewrite build_chain_eq, Hvs. fold rs. unfold search_choice, getitem.
      rewrite Ht, Hk. cbn. reflexivity.
    + split; [|split; [|split]].
      * rewrite dom_insert_L, dom_empty_L. set_solver.
      * now rewrite lookup_insert_eq.
      * rewrite lookup_insert_ne by discriminate. apply lookup_empty.
      * rewrite lookup_insert_ne by discriminate. apply lookup_empty.
  - intros tag Ht Hm Hs.
    assert (Hc : search_choice rs = Ok (None, None)).
    { unfold search_choice, getitem.
      rewrite Ht, (py_eq_str_false _ _ Hm), (py_eq_str_false _ _ Hs).
      reflexivity. }
    split; [exact Hc|].
    rewrite build_chain_eq, Hvs. fold rs. rewrite Hc. reflexivity.
Qed.

Section Settings.

Variable split_documents : list Document -> list Document.
Variable resolve : string -> path.

(** C10: with no store loaded, [set_retrieval_settings] raises the
    error of [_build_chain], and the settings it was given are already
    those of the object (nothing else changed); when [ingest] next
    returns, the retriever it built is the one selected from these new
    settings. *)
Theorem set_retrieval_settings_keeps_new_settings settings w :
  vector_store (self w) = None ->
  let w' := mkWorld (set_retrieval_settings_attr settings (self w))
                    (disk w) (stdout w) in
  set_retrieval_settings settings w
  = (Raise (RuntimeError
              "Vector store must be initialised before building the retriever."),
     w')
  /\ retrieval_settings (self w') = settings
  /\ forall fs repo_path w2,
       ingest split_documents resolve fs repo_path w' = (Ok tt, w2) ->
       exists vs choice,
         search_choice settings = Ok choice
         /\ retrieval_settings (self w2) = settings
         /\ retriever (self w2)
            = Some (as_retriever vs (fst choice) (snd choice)).
Proof.
  intros Hvs w'. split; [|split].
  - unfold set_retrieval_settings, bind, modify. rewrite build_chain_eq.
    cbn. rewrite Hvs. reflexivity.
  - reflexivity.
  - intros fs repo_path w2 Hing.
    destruct (ingest_ok_state _ _ _ _ _ _ Hing)
      as (vs & choice & _ & _ & Hrs & Hc & Hr).
    exists vs, choice. auto.
Qed.

End Settings.

(** * The model at work on a small repository *)

Lemma one_chunk_preserves_source : preserves_source one_chunk_per_document.
Proof. intros docs c Hc. exists c. split; [exact Hc|reflexivity]. Qed.

Example demo_ingest_returns :
  fst (ingest one_chunk_per_document posix_resolve demo_fs "/repo" new_world) = Ok tt
  /\ vector_store (self demo_world) = Some ChromaClient
  /\ _repo_root (self demo_world) = Some ["repo"].
Proof. repeat split; vm_compute; reflexivity. Qed.

(** C2: [_load_repo] loads [build/notes.md], a file below a directory of
    the ignored set, and [ingest] stores its chunk: the test on
    [ignore_dirs] skips the directory entry itself, and the walk still
    yields what lies below it. *)
Theorem ingest_indexes_file_under_ignored_dir :
  _load_repo default_include_ext demo_fs ["repo"]
  = Ok [loaded_document "def f(): return 1" "/repo/a.py" "a.py";
        loaded_document "def g(): return 2" "/repo/b.py" "b.py";
        loaded_document " ok " "/repo/ok.txt" "ok.txt";
        loaded_document "stale build notes" "/repo/build/notes.md" "build/notes.md"]
  /\ stored demo_world
     = [loaded_document "def f(): return 1" "/repo/a.py" "a.py";
        loaded_document "def g(): return 2" "/repo/b.py" "b.py";
        loaded_document "stale build notes" "/repo/build/notes.md" "build/notes.md"].
Proof. split; vm_compute; reflexivity. Qed.

(** Two updates of [a.py] in a row: one generation of its chunks. *)
Example demo_update_twice :
  let w1 := snd (update_files one_chunk_per_document posix_resolve demo_fs
                   ["/repo/a.py"] demo_world) in
  let w2 := snd (update_files one_chunk_per_document posix_resolve demo_fs_edited
                   ["/repo/a.py"] w1) in
  stored w2
  = [loaded_document "def g(): return 2" "/repo/b.py" "b.py";
     loaded_document "stale build notes" "/repo/build/notes.md" "build/notes.md";
     loaded_document "def f(): return 3" "/repo/a.py" "a.py"].
Proof. vm_compute. reflexivity. Qed.

(** The same path given twice in one call is reloaded twice. *)
Example demo_update_repeated_path :
  stored (snd (update_files one_chunk_per_document posix_resolve demo_fs_edited
                 ["/repo/a.py"; "/repo/a.py"] demo_world))
  = [loaded_document "def g(): return 2" "/repo/b.py" "b.py";
     loaded_document "stale build notes" "/repo/build/notes.md" "build/notes.md";
     loaded_document "def f(): return 3" "/repo/a.py" "a.py";
     loaded_document "def f(): return 3" "/repo/a.py" "a.py"].
Proof. vm_compute. reflexivity. Qed.

(** Counterexample to C3 as stated: on an object whose store was
    restored from disk and on which [ingest] never ran, [update_files]
    does not raise the error of its guard; with no path it returns, and
    with a path it raises the [TypeError] of [relative_to(None)]. *)
Lemma update_after_restore_passes_guard :
  vector_store (self restored_world) = Some ChromaClient
  /\ _repo_root (self restored_world) = None
  /\ fst (update_files one_chunk_per_document posix_resolve demo_fs []
            restored_world) = Ok tt
  /\ fst (update_files one_chunk_per_document posix_resolve demo_fs
            ["/repo/a.py"] restored_world) = Raise TypeError.
Proof. repeat split; vm_compute; reflexivity. Qed.


(** ** The theorems at concrete inputs *)

Lemma update_twice_one_generation_witness :
  let w1 := snd (update_files one_chunk_per_document posix_resolve demo_fs
                   ["/repo/a.py"] demo_world) in
  let w2 := snd (update_files one_chunk_per_document posix_resolve demo_fs_edited
                   ["/repo/a.py"] w1) in
  exists docs2,
    disk w2 = ChromaStore docs2
    /\ List.filter (in_sources ["a.py"]) docs2
       = added_chunks one_chunk_per_document
           [loaded_document "def f(): return 3" "/repo/a.py" "a.py"]
    /\ without_sources ["a.py"] docs2 = without_sources ["a.py"] (stored demo_world).
Proof.
  apply (update_twice_one_generation one_chunk_per_document posix_resolve
           one_chunk_preserves_source demo_fs demo_fs_edited ["/repo/a.py"]
           demo_world ChromaClient ["repo"] (stored demo_world) [["a.py"]]
           [loaded_document "def f(): return 3" "/repo/a.py" "a.py"]);
    vm_compute; reflexivity.
Defined.

Lemma update_needs_loaded_store_witness :
  vector_store (self new_world) = None
  /\ update_files one_chunk_per_document posix_resolve demo_fs ["/repo/a.py"]
       new_world
     = (Raise not_ingested, new_world)
  /\ fst (update_files one_chunk_per_document posix_resolve demo_fs_edited
            ["/repo/a.py"] demo_world)
     <> Raise not_ingested.
Proof.
  assert (Hnone : vector_store (self new_world) = None) by reflexivity.
  destruct (update_needs_loaded_store one_chunk_per_document posix_resolve
              demo_fs ["/repo/a.py"] new_world Hnone) as [Hguard Hafter].
  split; [exact Hnone|]. split; [exact Hguard|].
  apply (Hafter demo_fs "/repo" demo_world). vm_compute. reflexivity.
Defined.

Lemma build_chain_passes_strategy_parameters_witness :
  (exists kwargs : gmap string PyVal,
     _build_chain demo_world
     = (Ok tt,
        mkWorld (set_retriever
                   (Some (as_retriever ChromaClient (Some "mmr") (Some kwargs)))
                   (self demo_world))
                (disk demo_world) (stdout demo_world))
     /\ dom kwargs = {[ "k"; "fetch_k"; "lambda_mult" ]}
     /\ kwargs !! "k" = Some (PyInt 6)
     /\ kwargs !! "fetch_k" = Some (PyInt 20)
     /\ kwargs !! "lambda_mult" = Some (PyFloat (1 # 2)))
  /\ (exists kwargs : gmap string PyVal,
        retriever (self (snd (_build_chain (with_settings similarity_settings demo_world))))
        = Some (as_retriever ChromaClient (Some "similarity") (Some kwargs))
        /\ dom kwargs = {[ "k" ]}
        /\ kwargs !! "fetch_k" = None)
  /\ _build_chain (with_settings unknown_settings demo_world)
     = (Raise search_type_not_allowed, with_settings unknown_settings demo_world).
Proof.
  split; [|split].
  - apply (proj1 (build_chain_passes_strategy_parameters demo_world ChromaClient
                    eq_refl));
      vm_compute; reflexivity.
  - destruct (proj1 (proj2 (build_chain_passes_strategy_parameters
                              (with_settings similarity_settings demo_world)
                              ChromaClient eq_refl))
                (PyInt 4) eq_refl eq_refl)
      as (kwargs & Hrun & Hdom & _ & Hfetch & _).
    exists kwargs. rewrite Hrun. auto.
  - apply (proj2 (proj2 (build_chain_passes_strategy_parameters
                           (with_settings unknown_settings demo_world)
                           ChromaClient eq_refl))
             (PyStr "bm25") eq_refl); discriminate.
Defined.


Lemma update_out_of_scope_witness :
  exists p,
    In p ["/repo/a.py"; "/etc/passwd"]
    /\ relative_to (posix_resolve p) ["repo"] = None
    /\ update_files one_chunk_per_document posix_resolve demo_fs
         ["/repo/a.py"; "/etc/passwd"] demo_world
       = (Raise (ValueError (str_abs (posix_resolve p)
                               ++ " is outside the ingested repository root")),
          demo_world).
Proof.
  apply (update_out_of_scope one_chunk_per_document posix_resolve demo_fs
           ["/repo/a.py"; "/etc/passwd"] demo_world ChromaClient ["repo"]).
  - vm_compute. reflexivity.
  - vm_compute. reflexivity.
  - apply Exists_cons_tl. apply Exists_cons_hd. vm_compute. reflexivity.
Defined.


Lemma set_retrieval_settings_keeps_new_settings_witness :
  set_retrieval_settings similarity_settings new_world
  = (Raise (RuntimeError
              "Vector store must be initialised before building the retriever."),
     with_settings similarity_settings new_world)
  /\ exists vs choice,
       search_choice similarity_settings = Ok choice
       /\ retriever
            (self (snd (ingest one_chunk_per_document posix_resolve demo_fs "/repo"
                          (with_settings similarity_settings new_world))))
          = Some (as_retriever vs (fst choice) (snd choice)).
Proof.
  destruct (set_retrieval_settings_keeps_new_settings one_chunk_per_document
              posix_resolve similarity_settings new_world eq_refl)
    as (Hrun & _ & Hnext).
  split; [exact Hrun|].
  destruct (Hnext demo_fs "/repo"
              (snd (ingest one_chunk_per_document posix_resolve demo_fs "/repo"
                      (with_settings similarity_settings new_world))))
    as (vs & choice & Hc & _ & Hr).
  - vm_compute. reflexivity.
  - exists vs, choice. split; assumption.
Defined.

(** * Further properties of the pipeline *)

(** ** Paths *)

(** [(root / rel).relative_to(root)] gives [rel] back, and a path is
    relative to a root only by being the root followed by the result. *)
Lemma relative_to_app root rel : relative_to (root ++ rel) root = Some rel.
Proof.
  induction root as [|r root IH]; [now destruct rel|].
  cbn [app relative_to]. now rewrite String.eqb_refl.
Qed.

Lemma relative_to_Some root : forall p rel,
  relative_to p root = Some rel -> p = root ++ rel.
Proof.
  induction root as [|r root IH]; intros p rel H.
  - destruct p; now injection H as <-.
  - destruct p as [|x p]; [discriminate|]. cbn [relative_to] in H.
    destruct (String.eqb x r) eqn:Hx; [|discriminate].
    apply String.eqb_eq in Hx as ->. cbn [app]. f_equal. now apply IH.
Qed.

(** ** Loops that stop at the first error *)

Lemma extend_each_first_raise {A B} (f : A -> result (list B)) l x e :
  In x l -> f x = Raise e ->
  exists x' e', In x' l /\ f x' = Raise e' /\ extend_each f l = Raise e'.
Proof.
  induction l as [|a l IH]; intros Hx Hfx; [destruct Hx|].
  cbn [extend_each]. destruct (f a) as [ys|e0] eqn:Hfa.
  - destruct Hx as [->|Hx]; [congruence|].
    destruct (IH Hx Hfx) as (x' & e' & Hin & Hf & Hrun).
    exists x', e'. rewrite Hrun. split; [now right|]. split; [exact Hf|reflexivity].
  - exists a, e0. split; [now left|]. split; [exact Hfa|reflexivity].
Qed.

Lemma extend_each_one {A B} (f : A -> result (list B)) x :
  extend_each f [x]
  = match f x with
    | Ok ys => Ok (ys ++ [])
    | Raise e => Raise e
    end.
Proof. reflexivity. Qed.

Lemma extend_each_raise_In {A B} (f : A -> result (list B)) l e :
  extend_each f l = Raise e -> exists x, In x l /\ f x = Raise e.
Proof.
  induction l as [|a l IH]; [discriminate|]. cbn [extend_each].
  destruct (f a) as [ys|e0] eqn:Hfa.
  - destruct (extend_each f l) as [zs|e1]; [discriminate|].
    intros [= <-]. destruct (IH eq_refl) as (x & Hin & Hf).
    exists x. split; [now right|exact Hf].
  - intros [= <-]. exists a. split; [now left|exact Hfa].
Qed.

Lemma load_single_file_raises fs abs_path rel_path e :
  _load_single_file fs abs_path rel_path = Raise e ->
  e = RuntimeError ("Error loading " ++ str_abs abs_path)
  /\ ~ readable fs abs_path.
Proof.
  unfold _load_single_file, readable. intros H.
  destruct (lookup_path fs abs_path) as [[[text|]|]|]; try discriminate;
    injection H as <-; (split; [reflexivity|intros (t & Ht); discriminate Ht]).
Qed.

Lemma load_single_file_unreadable fs abs_path rel_path :
  ~ readable fs abs_path ->
  _load_single_file fs abs_path rel_path
  = Raise (RuntimeError ("Error loading " ++ str_abs abs_path)).
Proof.
  unfold _load_single_file, readable. intros H.
  destruct (lookup_path fs abs_path) as [[[text|]|]|]; try reflexivity.
  exfalso. apply H. eauto.
Qed.

Lemma load_single_file_readable fs abs_path rel_path text :
  lookup_path fs abs_path = Some (File (Some text)) ->
  _load_single_file fs abs_path rel_path
  = Ok [loaded_document text (str_abs abs_path) (str_rel rel_path)].
Proof. unfold _load_single_file. now intros ->. Qed.

(** ** [ingest] and [_load_repo] *)

Lemma load_entry_raises exts fs root rel node e :
  load_entry exts fs root (rel, node) = Raise e ->
  e = RuntimeError ("Error loading " ++ str_abs (root ++ rel)).
Proof.
  unfold load_entry.
  destruct (is_dir node && bool_decide (name rel ∈ ignore_dirs)); [discriminate|].
  destruct (is_file node && bool_decide (lower (suffix rel) ∈ exts));
    [|discriminate].
  intros H. now apply load_single_file_raises in H.
Qed.

Lemma exists_lookup fs p node : lookup_path fs p = Some node -> exists_ fs p = true.
Proof. unfold exists_. now intros ->. Qed.

Section IngestProperties.

Variable split_documents : list Document -> list Document.
Variable resolve : string -> path.

(** X1: [ingest] of a path that does not exist raises
    [FileNotFoundError] naming the resolved path and leaves everything as
    it was: the root remembered from an earlier ingest, the handles and the
    persisted collection. *)
Theorem ingest_missing_repository fs repo_path w :
  exists_ fs (resolve repo_path) = false ->
  ingest split_documents resolve fs repo_path w
  = (Raise (FileNotFoundError (str_abs (resolve repo_path) ++ " does not exist")),
     w).
Proof. intros H. rewrite ingest_eq. cbv zeta. now rewrite H. Qed.

(** X2: one file with an eligible suffix that cannot be read as text
    makes the whole [ingest] raise the loader's [RuntimeError] for some
    such file (the first the walk meets); nothing is indexed, the handles
    and the persisted collection are untouched, but the repository root
    has already been replaced by the new one. *)
Theorem ingest_aborts_on_unreadable_file fs repo_path w node rel :
  lookup_path fs (resolve repo_path) = Some node ->
  rel <> [] ->
  lookup_path node rel = Some (File None) ->
  lower (suffix rel) ∈ include_ext (self w) ->
  exists rel',
    ~ readable fs (resolve repo_path ++ rel')
    /\ ingest split_documents resolve fs repo_path w
       = (Raise (RuntimeError
                   ("Error loading " ++ str_abs (resolve repo_path ++ rel'))),
          with_repo_root (resolve repo_path) w).
Proof.
  intros Hroot Hne Hfile Hext. rewrite ingest_eq. cbv zeta.
  rewrite (exists_lookup _ _ _ Hroot). cbn [negb]. unfold _load_repo. rewrite Hroot.
  assert (Hin : In (rel, File None) (rglob node)) by now apply rglob_complete.
  assert (Hfail : load_entry (include_ext (self w)) fs (resolve repo_path)
                    (rel, File None)
                  = Raise (RuntimeError
                             ("Error loading " ++ str_abs (resolve repo_path ++ rel)))).
  { rewrite load_entry_file, bool_decide_eq_true_2 by exact Hext.
    apply load_single_file_unreadable. intros (text & Ht).
    rewrite (lookup_path_app _ fs rel node Hroot), Hfile in Ht. discriminate. }
  match goal with |- context [extend_each ?f ?l] =>
    destruct (extend_each_first_raise f l (rel, File None) _ Hin Hfail)
      as ([rel' n'] & e' & _ & He' & Hrun)
  end.
  exists rel'. rewrite Hrun. pose proof (load_entry_raises _ _ _ _ _ _ He') as ->.
  split; [|reflexivity].
  unfold load_entry in He'.
  destruct (is_dir n' && bool_decide (name rel' ∈ ignore_dirs)); [discriminate|].
  destruct (is_file n' && bool_decide (lower (suffix rel') ∈ include_ext (self w)));
    [|discriminate].
  now apply load_single_file_raises in He'.
Qed.

(** X3: when [ingest] returns, the path exists, every eligible file was
    loaded, the settings selected a retriever, and afterwards: every chunk
    made from the loaded documents is in the collection, the collection
    holds nothing but these chunks and what it held before, the store
    handle and the retriever are set, the root is the resolved path, and
    settings and extensions are as they were. *)
Theorem ingest_returns fs repo_path w w' :
  ingest split_documents resolve fs repo_path w = (Ok tt, w') ->
  exists docs choice,
    exists_ fs (resolve repo_path) = true
    /\ _load_repo (include_ext (self w)) fs (resolve repo_path) = Ok docs
    /\ search_choice (retrieval_settings (self w)) = Ok choice
    /\ (forall c, In c (make_chunks split_documents docs) -> In c (stored w'))
    /\ (forall c, In c (stored w') ->
          In c (stored w) \/ In c (make_chunks split_documents docs))
    /\ vector_store (self w') = Some ChromaClient
    /\ retriever (self w')
       = Some (as_retriever ChromaClient (fst choice) (snd choice))
    /\ _repo_root (self w') = Some (resolve repo_path)
    /\ retrieval_settings (self w') = retrieval_settings (self w)
    /\ include_ext (self w') = include_ext (self w)
    /\ fst (has_vector_db w') = Ok true
    /\ fst (ready_for_retrieval w') = Ok true.
Proof.
  rewrite ingest_eq. cbv zeta.
  destruct (exists_ fs (resolve repo_path)); cbn [negb]; [|discriminate].
  destruct (_load_repo _ fs (resolve repo_path)) as [docs|]; [|discriminate].
  destruct (collection (disk w)) as [old|] eqn:Hold; [|discriminate].
  destruct (make_chunks split_documents docs) as [|c cs] eqn:Hch; [discriminate|].
  destruct (search_choice (retrieval_settings (self w))) as [choice|];
    [|discriminate].
  destruct (validate_search_type (fst choice)); [|discriminate].
  intros [= <-]. exists docs, choice. rewrite Hch. unfold stored. rewrite Hold. cbn.
  repeat split; try reflexivity.
  - intros d Hd. apply in_or_app. now right.
  - intros d Hd. now apply in_app_or in Hd.
Qed.

End IngestProperties.

(** X4: when [_load_repo] returns, its documents are exactly those of
    the file entries of the walk whose lower-cased suffix is in the
    eligible set and that read as text, each tagged with its path relative
    to the root: the names of the directories on the way play no part, and
    nothing else is loaded. *)
Theorem load_repo_exactly_eligible_files exts fs root node docs d :
  lookup_path fs root = Some node ->
  _load_repo exts fs root = Ok docs ->
  In d docs
  <-> exists rel text,
        (exists content, In (rel, File content) (rglob node))
        /\ lower (suffix rel) ∈ exts
        /\ lookup_path fs (root ++ rel) = Some (File (Some text))
        /\ d = loaded_document text (str_abs (root ++ rel)) (str_rel rel).
Proof.
  intros Hroot Hrun. unfold _load_repo in Hrun. rewrite Hroot in Hrun. split.
  - intros Hd.
    destruct (extend_each_In _ _ _ _ Hrun Hd) as ([rel n] & ys & Hin & Hload & Hdy).
    destruct n as [content|entries]; [|rewrite load_entry_dir in Hload;
      injection Hload as <-; destruct Hdy].
    rewrite load_entry_file in Hload.
    destruct (bool_decide (lower (suffix rel) ∈ exts)) eqn:Hext;
      [|injection Hload as <-; destruct Hdy].
    apply bool_decide_eq_true_1 in Hext. unfold _load_single_file in Hload.
    destruct (lookup_path fs (root ++ rel)) as [[[text|]|]|] eqn:Hlook;
      try discriminate.
    injection Hload as <-. destruct Hdy as [<-|[]].
    exists rel, text. split; [eauto|]. split; [exact Hext|].
    split; [exact Hlook|reflexivity].
  - intros (rel & text & (content & Hin) & Hext & Hlook & ->).
    apply (extend_each_incl _ _ _ (rel, File content)
             [loaded_document text (str_abs (root ++ rel)) (str_rel rel)] Hrun Hin).
    + rewrite load_entry_file, bool_decide_eq_true_2 by exact Hext.
      now apply load_single_file_readable.
    + now left.
Qed.

(** ** [update_files], call by call *)

Section UpdateProperties.

Variable split_documents : list Document -> list Document.
Variable resolve : string -> path.

Lemma reload_readable fs (root rel : path) text :
  lookup_path fs (root ++ rel) = Some (File (Some text)) ->
  reload fs (Some root) rel
  = Ok [loaded_document text (str_abs (root ++ rel)) (str_rel rel)].
Proof.
  intros H. unfold reload. rewrite (exists_lookup _ _ _ H). cbn [negb].
  now apply load_single_file_readable.
Qed.

Lemma reload_raises fs (root rel : path) e :
  reload fs (Some root) rel = Raise e ->
  e = RuntimeError ("Error loading " ++ str_abs (root ++ rel))
  /\ ~ readable fs (root ++ rel).
Proof.
  unfold reload. destruct (negb (exists_ fs (root ++ rel))); [discriminate|].
  apply load_single_file_raises.
Qed.

(** With a store but no root, the first path stops the call. *)
Lemma update_files_no_root fs ps w vs :
  vector_store (self w) = Some vs ->
  _repo_root (self w) = None ->
  ps <> [] ->
  update_files split_documents resolve fs ps w = (Raise TypeError, w).
Proof.
  intros Hvs Hroot Hps. destruct ps as [|p ps]; [contradiction|].
  unfold update_files, bind at 1. unfold gets at 1. rewrite Hvs.
  unfold bind at 1. unfold gets at 1. rewrite Hroot. reflexivity.
Qed.

(** X5: [update_files] on one path that resolves to a readable file
    inside the root, on an object whose settings select a strategy the
    retriever accepts.  The file is loaded as the same document
    [_load_repo] makes for it (same text, same relative [source]); its
    suffix is not looked at.  When at least one chunk of it passes the
    filters, the call returns: the collection then holds what it held for
    the other sources followed by these chunks, the retriever is rebuilt
    from the current settings and nothing else changes.  When no chunk
    passes, the call raises the store's error for an empty batch after it
    has deleted the file's old chunks, and the retriever is not rebuilt. *)
Theorem update_reindexes_one_file fs p w vs (root : path) docs (rel : path) text choice :
  vector_store (self w) = Some vs ->
  _repo_root (self w) = Some root ->
  disk w = ChromaStore docs ->
  search_choice (retrieval_settings (self w)) = Ok choice ->
  validate_search_type (fst choice) = Ok tt ->
  resolve p = root ++ rel ->
  lookup_path fs (root ++ rel) = Some (File (Some text)) ->
  let kept := without_sources [str_rel rel] docs in
  let chunks :=
    make_chunks split_documents
      [loaded_document text (str_abs (root ++ rel)) (str_rel rel)] in
  update_files split_documents resolve fs [p] w
  = match chunks with
    | [] =>
        (Raise empty_upsert, mkWorld (self w) (ChromaStore kept) (stdout w))
    | _ :: _ =>
        (Ok tt,
         mkWorld (set_retriever (Some (as_retriever vs (fst choice) (snd choice)))
                    (self w))
                 (ChromaStore (kept ++ chunks))
                 (stdout w))
    end.
Proof.
  intros Hvs Hroot Hd Hc Hv Hp Hfile kept chunks.
  assert (Hn : extend_each (normalise resolve (Some root)) [p] = Ok [rel]).
  { rewrite extend_each_one. unfold normalise. now rewrite Hp, relative_to_app. }
  assert (Hl : extend_each (reload fs (Some root)) [rel]
               = Ok [loaded_document text (str_abs (root ++ rel)) (str_rel rel)]).
  { rewrite extend_each_one. now rewrite (reload_readable fs root rel text Hfile). }
  rewrite (update_files_run split_documents resolve fs [p] w vs root docs [rel] _
             Hvs Hroot Hd Hn Hl).
  cbv zeta. unfold adds_nothing, added_chunks. fold chunks.
  cbn [List.map]. fold kept.
  destruct chunks as [|c cs]; [now rewrite app_nil_r|].
  erewrite build_chain_run; [reflexivity|exact Hvs|exact Hc|exact Hv].
Qed.

(** X6: when the paths are all inside the root and one of them is there
    on disk but cannot be read as text (undecodable bytes, a directory),
    [update_files] raises the loader's [RuntimeError] for such a path after
    it has deleted the documents of every given path: nothing is added
    back, and the object (retriever included) is as before. *)
Theorem update_unreadable_file_drops_chunks fs ps w vs (root : path) docs rels (rel : path) :
  vector_store (self w) = Some vs ->
  _repo_root (self w) = Some root ->
  disk w = ChromaStore docs ->
  extend_each (normalise resolve (Some root)) ps = Ok rels ->
  In rel rels ->
  exists_ fs (root ++ rel) = true ->
  ~ readable fs (root ++ rel) ->
  exists rel',
    In rel' rels
    /\ ~ readable fs (root ++ rel')
    /\ update_files split_documents resolve fs ps w
       = (Raise (RuntimeError ("Error loading " ++ str_abs (root ++ rel'))),
          mkWorld (self w)
            (ChromaStore (without_sources (List.map str_rel rels) docs))
            (stdout w)).
Proof.
  intros Hvs Hroot Hd Hn Hin Hex Hbad.
  assert (Hfail : reload fs (Some root) rel
                  = Raise (RuntimeError ("Error loading " ++ str_abs (root ++ rel)))).
  { unfold reload. rewrite Hex. cbn [negb]. now apply load_single_file_unreadable. }
  destruct (extend_each_first_raise _ _ _ _ Hin Hfail) as (rel' & e' & Hin' & He' & Hrun).
  destruct (reload_raises _ _ _ _ He') as (-> & Hbad').
  exists rel'. split; [exact Hin'|]. split; [exact Hbad'|].
  now apply (update_files_load_fails split_documents resolve fs ps w vs root docs rels).
Qed.

(** X7: on an object that has a store but no remembered root (a store
    restored at construction), [update_files] with at least one path raises
    [TypeError] before it touches anything, while with no path it does just
    what [_build_chain] does. *)
Theorem update_without_root fs ps w vs :
  vector_store (self w) = Some vs ->
  _repo_root (self w) = None ->
  (ps <> [] ->
   update_files split_documents resolve fs ps w = (Raise TypeError, w))
  /\ update_files split_documents resolve fs [] w = _build_chain w.
Proof.
  intros Hvs Hroot. split; [now apply update_files_no_root with (vs := vs)|].
  unfold update_files, bind at 1. unfold gets at 1. rewrite Hvs.
  unfold bind at 1. unfold gets at 1. reflexivity.
Qed.

End UpdateProperties.

(** ** What every method keeps between the handles *)

Lemma handles_consistent_same_handles w w' :
  handles_consistent w ->
  vector_store (self w') = vector_store (self w) ->
  retriever (self w') = retriever (self w) ->
  disk w' = disk w ->
  handles_consistent w'.
Proof.
  intros [H1 H2] Hvs Hr Hd. unfold handles_consistent.
  rewrite Hvs, Hr, Hd. split; assumption.
Qed.

Lemma safe_consistent_with_collection f :
  safe handles_consistent (fun _ => False) (with_collection f).
Proof.
  apply safe_with_collection; [tauto|]. intros w docs [H1 H2] _.
  split; [exact H1|]. intros _. cbn. eauto.
Qed.

Lemma safe_consistent_build_chain :
  safe handles_consistent (fun _ => False) _build_chain.
Proof.
  intros w Hw. rewrite build_chain_eq.
  destruct (vector_store (self w)) as [vs|] eqn:Hvs.
  - destruct (search_choice (retrieval_settings (self w))) as [choice|];
      [destruct (validate_search_type (fst choice))|]; cbn [fst snd].
    + split; [|discriminate]. destruct Hw as [_ H2].
      rewrite Hvs in H2. split; cbn; rewrite Hvs; [discriminate|exact H2].
    + split; [exact Hw|tauto].
    + split; [exact Hw|tauto].
  - cbn [fst snd]. split; [exact Hw|tauto].
Qed.

Lemma init_restores include_ext rs docs choice :
  search_choice rs = Ok choice ->
  validate_search_type (fst choice) = Ok tt ->
  __init__ include_ext rs (ChromaStore docs)
  = mkWorld
      (set_retriever (Some (as_retriever ChromaClient (fst choice) (snd choice)))
         (set_vector_store (Some ChromaClient)
            (self (fresh include_ext rs (ChromaStore docs)))))
      (ChromaStore docs) [].
Proof.
  intros Hc Hv. unfold __init__. cbn [dir_nonempty].
  unfold try_except, restore, Chroma_open, with_collection, bind, ret, modify.
  cbn [fresh disk collection self stdout]. rewrite build_chain_eq.
  cbn [self vector_store set_vector_store retrieval_settings]. rewrite Hc, Hv.
  reflexivity.
Qed.

Section Invariant.

Variable split_documents : list Document -> list Document.
Variable resolve : string -> path.

(** X8: in every world the constructor gives, and after every method
    whether it returns or raises, a retriever is there only together with
    a store handle, and a store handle only together with a collection in
    the persist directory: [ready_for_retrieval] implies [has_vector_db],
    and the handle never points at an empty or unreadable directory. *)
Theorem handles_stay_consistent :
  (forall include_ext rs persist_directory,
      handles_consistent (__init__ include_ext rs persist_directory))
  /\ forall w, handles_consistent w ->
       (forall fs repo_path,
           handles_consistent (snd (ingest split_documents resolve fs repo_path w)))
       /\ (forall fs ps,
           handles_consistent (snd (update_files split_documents resolve fs ps w)))
       /\ (forall settings,
           handles_consistent (snd (set_retrieval_settings settings w)))
       /\ handles_consistent (snd (clear w))
       /\ handles_consistent (snd (clear_vector_db w)).
Proof.
  split.
  - intros include_ext rs d. destruct d as [|docs|why|].
    + split; cbn; congruence.
    + unfold __init__. cbn [dir_nonempty].
      unfold try_except, restore, Chroma_open, with_collection, bind, ret, modify.
      cbn [fresh disk collection self stdout]. rewrite build_chain_eq.
      cbn [self vector_store set_vector_store retrieval_settings].
      destruct (search_choice rs) as [choice|e];
        [destruct (validate_search_type (fst choice))|];
        split; cbn; first [congruence|eauto].
    + split; cbn; congruence.
    + split; cbn; congruence.
  - intros w Hw. split; [|split; [|split; [|split]]].
    + intros fs repo_path. rewrite ingest_eq. cbv zeta.
      assert (Hroot : handles_consistent (with_repo_root (resolve repo_path) w))
        by (apply (handles_consistent_same_handles w); [exact Hw|reflexivity..]).
      destruct (negb (exists_ fs (resolve repo_path))); [exact Hw|].
      destruct (_load_repo _ fs (resolve repo_path)) as [docs|]; [|exact Hroot].
      destruct (collection (disk w)) as [old|]; [|exact Hroot].
      destruct (make_chunks split_documents docs).
      { destruct Hw as [H1 _]. split; cbn; [exact H1|eauto]. }
      destruct (search_choice (retrieval_settings (self w))) as [choice|];
        [destruct (validate_search_type (fst choice))|];
        (split; cbn; [discriminate|eauto]).
    + intros fs ps.
      enough (H : safe handles_consistent (fun _ => False)
                    (update_files split_documents resolve fs ps))
        by exact (proj1 (H w Hw)).
      unfold update_files.
      apply safe_bind; [apply safe_gets|intros [vs|]]; [|apply safe_raise; tauto].
      apply safe_bind; [apply safe_gets|intros root].
      apply safe_bind; [apply safe_lift; tauto|intros normalised].
      apply safe_bind;
        [apply safe_for_each; intros; apply safe_consistent_with_collection
        |intros _].
      apply safe_bind; [apply safe_lift; tauto|intros docs].
      apply safe_bind; [|intros _; apply safe_consistent_build_chain].
      destruct docs; [apply safe_ret|].
      apply safe_add_documents; [tauto|tauto|]. intros w0 old [H1 H2] _.
      split; [exact H1|]. intros _. cbn. eauto.
    + intros settings.
      enough (H : safe handles_consistent (fun _ => False)
                    (set_retrieval_settings settings))
        by exact (proj1 (H w Hw)).
      unfold set_retrieval_settings.
      apply safe_bind; [|intros _; apply safe_consistent_build_chain].
      intros w0 Hw0. cbn. split; [|discriminate].
      apply (handles_consistent_same_handles w0); [exact Hw0|reflexivity..].
    + split; cbn; congruence.
    + split; cbn; congruence.
Qed.

End Invariant.

(** ** Settings that miss a key *)

(** X9: [_build_chain] finds every key it reads exactly when the
    settings hold a [ret_strat] and, for the tag ["mmr"], the keys [k],
    [fetch_k] and [lambda_mult], for the tag ["similarity"], the key [k];
    with any other tag no further key is needed. *)
Theorem settings_ok_iff (rs : gmap string PyVal) :
  settings_ok rs = true
  <-> exists tag,
        rs !! "ret_strat" = Some tag
        /\ (tag = PyStr "mmr" ->
            is_Some (rs !! "k") /\ is_Some (rs !! "fetch_k")
            /\ is_Some (rs !! "lambda_mult"))
        /\ (tag = PyStr "similarity" -> is_Some (rs !! "k")).
Proof.
  unfold settings_ok, search_choice, getitem. split.
  - destruct (rs !! "ret_strat") as [tag|]; [|discriminate]. intros H.
    exists tag. split; [reflexivity|]. split.
    + intros ->. cbn in H.
      destruct (rs !! "k"); [|discriminate].
      destruct (rs !! "fetch_k"); [|discriminate].
      destruct (rs !! "lambda_mult"); [|discriminate]. eauto.
    + intros ->. cbn in H. destruct (rs !! "k"); [eauto|discriminate].
  - intros (tag & -> & Hmmr & Hsim).
    destruct (py_eq_str tag "mmr") eqn:Em.
    + apply py_eq_str_true in Em. destruct (Hmmr Em) as ([? ->] & [? ->] & [? ->]).
      reflexivity.
    + destruct (py_eq_str tag "similarity") eqn:Es; [|reflexivity].
      apply py_eq_str_true in Es. destruct (Hsim Es) as [? ->]. reflexivity.
Qed.

(** X10: with a store loaded, [set_retrieval_settings] given settings
    that miss a key raises the [KeyError] of that key; the settings of the
    object are then the new ones while its retriever is still the one it
    had, built from the old settings, and nothing else changed. *)
Theorem set_retrieval_settings_missing_key settings w vs :
  vector_store (self w) = Some vs ->
  settings_ok settings = false ->
  exists key,
    set_retrieval_settings settings w
    = (Raise (KeyError key),
       mkWorld (set_retrieval_settings_attr settings (self w)) (disk w) (stdout w))
    /\ retriever (set_retrieval_settings_attr settings (self w)) = retriever (self w).
Proof.
  intros Hvs Hbad. unfold settings_ok in Hbad.
  destruct (search_choice settings) as [choice|e] eqn:Hc; [discriminate|].
  destruct (search_choice_raises _ _ Hc) as (key & ->). exists key.
  split; [|reflexivity].
  unfold set_retrieval_settings, bind, modify. rewrite build_chain_eq.
  cbn [self disk stdout set_retrieval_settings_attr vector_store retrieval_settings].
  now rewrite Hvs, Hc.
Qed.

(** ** Restart, reset and destruction *)

Section Restart.

Variable split_documents : list Document -> list Document.
Variable resolve : string -> path.

(** X11: the collection survives a restart, the root does not.  After
    an [ingest] that returned, a new object constructed over the same
    persist directory with settings that select a strategy ([mmr] or
    [similarity], with the keys it reads) has the store handle and a
    retriever, prints nothing, and finds the same documents; its remembered
    root is [None]. *)
Theorem store_survives_restart fs repo_path w w1 include_ext rs :
  ingest split_documents resolve fs repo_path w = (Ok tt, w1) ->
  retriever_builds rs = true ->
  let w2 := __init__ include_ext rs (disk w1) in
  stored w2 = stored w1
  /\ disk w2 = disk w1
  /\ vector_store (self w2) = Some ChromaClient
  /\ fst (ready_for_retrieval w2) = Ok true
  /\ stdout w2 = []
  /\ _repo_root (self w1) = Some (resolve repo_path)
  /\ _repo_root (self w2) = None.
Proof.
  intros Hing Hok. destruct (retriever_builds_choice rs Hok) as (choice & Hc & Hv).
  rewrite ingest_eq in Hing. cbv zeta in Hing.
  destruct (negb (exists_ fs (resolve repo_path))); [discriminate|].
  destruct (_load_repo _ fs (resolve repo_path)) as [docs|]; [|discriminate].
  destruct (collection (disk w)) as [old|]; [|discriminate].
  destruct (make_chunks split_documents docs); [discriminate|].
  destruct (search_choice (retrieval_settings (self w))) as [choice0|];
    [|discriminate].
  destruct (validate_search_type (fst choice0)); [|discriminate].
  injection Hing as <-. cbn [disk]. cbv zeta.
  rewrite (init_restores include_ext rs _ choice Hc Hv). cbn. repeat split.
Qed.

(** X12: [clear] and [clear_vector_db] leave the same object, and differ
    in what a later construction finds: over the directory [clear] left, a
    new object with settings that select a strategy ([mmr] or
    [similarity], with the keys it reads) restores the documents; over the
    directory [clear_vector_db] left, it starts with no store and nothing
    stored. *)
Theorem reset_keeps_what_destroy_removes w docs include_ext rs :
  disk w = ChromaStore docs ->
  retriever_builds rs = true ->
  self (snd (clear w)) = self (snd (clear_vector_db w))
  /\ (let w2 := __init__ include_ext rs (disk (snd (clear w))) in
      vector_store (self w2) = Some ChromaClient /\ stored w2 = docs)
  /\ (let w2 := __init__ include_ext rs (disk (snd (clear_vector_db w))) in
      vector_store (self w2) = None /\ stored w2 = []).
Proof.
  intros Hd Hok. destruct (retriever_builds_choice rs Hok) as (choice & Hc & Hv).
  split; [reflexivity|]. split.
  - cbn [clear _clear bind modify snd disk]. cbv zeta.
    change (disk (snd (clear w))) with (disk w). rewrite Hd.
    rewrite (init_restores include_ext rs docs choice Hc Hv). split; reflexivity.
  - change (disk (snd (clear_vector_db w))) with (rmtree_mkdir (disk w)).
    rewrite Hd. split; reflexivity.
Qed.

(** X13: an [ingest] that loaded documents of which at least one chunk
    passes the filters, and that fails in [_build_chain] because the
    settings miss a key, has already stored the chunks and set the store
    handle, and built no retriever; [set_retrieval_settings] with settings
    that select a strategy the retriever accepts then returns and builds
    the retriever over that collection, without another ingest. *)
Theorem bad_settings_fixed_without_reingest fs repo_path w docs old settings choice :
  exists_ fs (resolve repo_path) = true ->
  _load_repo (include_ext (self w)) fs (resolve repo_path) = Ok docs ->
  collection (disk w) = Ok old ->
  make_chunks split_documents docs <> [] ->
  settings_ok (retrieval_settings (self w)) = false ->
  search_choice settings = Ok choice ->
  validate_search_type (fst choice) = Ok tt ->
  let r1 := ingest split_documents resolve fs repo_path w in
  let r2 := set_retrieval_settings settings (snd r1) in
  (exists key, fst r1 = Raise (KeyError key))
  /\ vector_store (self (snd r1)) = Some ChromaClient
  /\ retriever (self (snd r1)) = retriever (self w)
  /\ (forall c, In c (make_chunks split_documents docs) -> In c (stored (snd r1)))
  /\ fst r2 = Ok tt
  /\ retriever (self (snd r2))
     = Some (as_retriever ChromaClient (fst choice) (snd choice))
  /\ disk (snd r2) = disk (snd r1).
Proof.
  intros Hex Hload Hold Hne Hbad Hc Hv r1 r2. subst r2 r1.
  rewrite ingest_eq. cbv zeta. rewrite Hex, Hload, Hold. cbn [negb].
  destruct (make_chunks split_documents docs) as [|c0 chunks]; [contradiction|].
  unfold settings_ok in Hbad.
  destruct (search_choice (retrieval_settings (self w))) as [|e] eqn:He;
    [discriminate|].
  destruct (search_choice_raises _ _ He) as (key & ->).
  cbn [fst snd]. split; [eauto|]. split; [reflexivity|]. split; [reflexivity|].
  split.
  - intros c Hin. unfold stored. cbn. apply in_or_app. now right.
  - unfold set_retrieval_settings, bind, modify. rewrite build_chain_eq.
    cbn [self disk stdout set_retrieval_settings_attr vector_store
         retrieval_settings set_vector_store]. rewrite Hc, Hv. cbn. repeat split.
Qed.

(** X14: [get_memory_pipeline] over a persist directory that already
    holds a collection (the application was restarted) returns without
    reading the repository: the collection is used as it is, only the
    banner is printed, and the object has no remembered root, so that the
    callback [update_repo] registers, [memory.update_files(path)], raises
    [TypeError] for every path and changes nothing. *)
Theorem get_memory_pipeline_after_restart env data_dir repo_name fs docs :
  let r := get_memory_pipeline split_documents resolve env data_dir repo_name fs
             (ChromaStore docs) in
  fst r = Ok tt
  /\ disk (snd r) = ChromaStore docs
  /\ vector_store (self (snd r)) = Some ChromaClient
  /\ _repo_root (self (snd r)) = None
  /\ stdout (snd r) = memory_pipeline_banner env repo_name
  /\ forall fs' path,
       update_files split_documents resolve fs' [path] (snd r)
       = (Raise TypeError, snd r).
Proof.
  cbv zeta. unfold get_memory_pipeline.
  assert (Hc : search_choice default_retrieval_settings
               = Ok (Some "mmr",
                     Some (<["k" := PyInt 6]> (<["fetch_k" := PyInt 20]>
                             (<["lambda_mult" := PyFloat (1 # 2)]> ∅)))))
    by (vm_compute; reflexivity).
  rewrite (init_restores None default_retrieval_settings docs _ Hc eq_refl).
  cbn [self disk stdout bind has_vector_db gets ret vector_store set_retriever
       set_vector_store negb fst snd app].
  rewrite app_nil_r.
  split; [reflexivity|]. split; [reflexivity|]. split; [reflexivity|].
  split; [reflexivity|]. split; [reflexivity|].
  intros fs' path. now apply update_files_no_root with (vs := ChromaClient).
Qed.

(** X19: [clear_vector_db] on an object whose directory held a store is
    not undone by [ingest] in the same process: the call returns and
    nothing is stored any more, but the store library still holds its
    client of the removed database, so every later [ingest] on the object
    raises, whatever the repository, and leaves it without store handle
    and retriever. *)
Theorem ingest_after_destroy_raises w docs :
  disk w = ChromaStore docs ->
  let w1 := snd (clear_vector_db w) in
  fst (clear_vector_db w) = Ok tt
  /\ stored w1 = []
  /\ forall fs repo_path,
       let r := ingest split_documents resolve fs repo_path w1 in
       (exists e, fst r = Raise e)
       /\ (exists_ fs (resolve repo_path) = true ->
           (exists loaded,
              _load_repo (include_ext (self w)) fs (resolve repo_path) = Ok loaded) ->
           fst r = Raise (ChromaError database_moved))
       /\ fst (has_vector_db (snd r)) = Ok false
       /\ fst (ready_for_retrieval (snd r)) = Ok false.
Proof.
  intros Hd w1. split; [reflexivity|].
  assert (Hd1 : disk w1 = RemovedUnderClient).
  { subst w1. change (disk (snd (clear_vector_db w))) with (rmtree_mkdir (disk w)).
    now rewrite Hd. }
  split; [unfold stored; now rewrite Hd1|].
  intros fs repo_path. cbv zeta. rewrite ingest_eq. cbv zeta. rewrite Hd1.
  change (include_ext (self w1)) with (include_ext (self w)).
  cbn [collection].
  destruct (exists_ fs (resolve repo_path)); cbn [negb].
  - destruct (_load_repo (include_ext (self w)) fs (resolve repo_path))
      as [loaded|e].
    + split; [eauto|]. split; [reflexivity|]. split; reflexivity.
    + split; [eauto|]. split; [|split; reflexivity].
      intros _ (loaded & H). discriminate H.
  - split; [eauto|]. split; [discriminate|]. split; reflexivity.
Qed.

End Restart.

(** * Properties of the streamed answer ([chat.py]) *)

Lemma append_cons c (s t : string) :
  (String c s ++ t)%string = String c (s ++ t)%string.
Proof. reflexivity. Qed.

Lemma append_empty_r (s : string) : (s ++ "")%string = s.
Proof.
  induction s as [|c s IH]; [reflexivity|]. rewrite append_cons. now f_equal.
Qed.

Lemma append_assoc (s1 s2 s3 : string) :
  ((s1 ++ s2) ++ s3)%string = (s1 ++ (s2 ++ s3))%string.
Proof.
  induction s1 as [|c s1 IH]; [reflexivity|]. rewrite !append_cons. now f_equal.
Qed.

Lemma stream_text_app pre post :
  stream_text (pre ++ post) = (stream_text pre ++ stream_text post)%string.
Proof.
  induction pre as [|c pre IH]; [reflexivity|].
  cbn [app stream_text]. now rewrite IH, append_assoc.
Qed.

Lemma response_loop_text stream : forall acc ui,
  fst (response_loop stream acc ui) = (acc ++ stream_text stream)%string.
Proof.
  induction stream as [|c stream IH]; intros acc ui; cbn [response_loop stream_text].
  - now rewrite append_empty_r.
  - now rewrite IH, append_assoc.
Qed.

(** What the thinking loop returns and what it leaves in the stream
    make up the text it was given. *)
Lemma thinking_loop_text stream : forall acc ui,
  (fst (fst (thinking_loop stream acc ui))
     ++ stream_text (snd (thinking_loop stream acc ui)))%string
  = (acc ++ stream_text stream)%string.
Proof.
  induction stream as [|c stream IH]; intros acc ui; cbn [thinking_loop stream_text].
  - reflexivity.
  - cbv zeta. destruct (contains "<think>" (content_or_empty c)).
    + now rewrite IH, append_assoc.
    + destruct (contains "</think>" (content_or_empty c)).
      * cbn [fst snd]. now rewrite append_assoc.
      * now rewrite IH, append_assoc.
Qed.

(** X15: the content [process_input] stores for the assistant,
    [thinking_content + response_content], is the text of the whole
    stream, chunk after chunk, with absent contents read as empty: between
    the two phases, which share one iterator, nothing is lost and nothing
    is read twice. *)
Theorem assistant_content_is_stream_text stream :
  assistant_content stream = stream_text stream.
Proof.
  unfold assistant_content, process_thinking_phase, process_response_phase.
  pose proof (thinking_loop_text stream ""
                [StatusOpened "Thinking..."; PlaceholderCreated]) as H.
  destruct (thinking_loop stream "" _) as [[thinking ui] rest]. cbn [fst snd] in H.
  pose proof (response_loop_text rest "" [PlaceholderCreated]) as Hr.
  destruct (response_loop rest "" _) as [response ui']. cbn [fst] in Hr.
  subst response. exact H.
Qed.

Lemma thinking_loop_split pre : forall chunk post acc ui,
  forallb (fun c => negb (ends_thinking c)) pre = true ->
  ends_thinking chunk = true ->
  fst (fst (thinking_loop (pre ++ chunk :: post) acc ui))
  = (acc ++ stream_text (pre ++ [chunk]))%string
  /\ snd (thinking_loop (pre ++ chunk :: post) acc ui) = post
  /\ exists ui',
       snd (fst (thinking_loop (pre ++ chunk :: post) acc ui))
       = ui' ++ [StatusUpdated "Thinking complete!"].
Proof.
  induction pre as [|c pre IH]; intros chunk post acc ui Hpre Hend.
  - cbn [app thinking_loop stream_text]. cbv zeta. unfold ends_thinking in Hend.
    destruct (contains "<think>" (content_or_empty chunk)); [discriminate|].
    destruct (contains "</think>" (content_or_empty chunk)); [|discriminate].
    cbn [fst snd]. rewrite append_empty_r. eauto.
  - cbn [forallb] in Hpre. apply andb_prop in Hpre as [Hc Hpre].
    cbn [app thinking_loop]. cbv zeta. unfold ends_thinking in Hc.
    change (stream_text (c :: pre ++ [chunk]))
      with (content_or_empty c ++ stream_text (pre ++ [chunk]))%string.
    rewrite <- append_assoc.
    destruct (contains "<think>" (content_or_empty c)); [now apply IH|].
    destruct (contains "</think>" (content_or_empty c)); [discriminate|].
    now apply IH.
Qed.

Lemma status_running_updated ui label :
  status_running (ui ++ [StatusUpdated label]) = false.
Proof.
  unfold status_running. rewrite existsb_app. cbn. now rewrite orb_true_r.
Qed.

(** X16: the thinking phase ends at the first chunk that holds
    ["</think>"] and not ["<think>"]: it returns the text up to and
    including that chunk, marks the status complete, and leaves exactly the
    chunks after it, whose text the response phase returns.  A chunk
    holding both tags does not end it. *)
Theorem thinking_ends_at_closing_chunk pre chunk post :
  forallb (fun c => negb (ends_thinking c)) pre = true ->
  ends_thinking chunk = true ->
  let '(thinking_content, ui, rest) := process_thinking_phase (pre ++ chunk :: post) in
  thinking_content = stream_text (pre ++ [chunk])
  /\ rest = post
  /\ List.last ui PlaceholderCreated = StatusUpdated "Thinking complete!"
  /\ fst (process_response_phase rest) = stream_text post.
Proof.
  intros Hpre Hend. unfold process_thinking_phase.
  destruct (thinking_loop_split pre chunk post ""
              [StatusOpened "Thinking..."; PlaceholderCreated] Hpre Hend)
    as (Ht & Hrest & ui' & Hui).
  destruct (thinking_loop (pre ++ chunk :: post) "" _) as [[thinking ui] rest].
  cbn [fst snd] in *. subst. rewrite status_running_updated.
  split; [reflexivity|]. split; [reflexivity|].
  split; [apply last_last|].
  unfold process_response_phase. now rewrite response_loop_text.
Qed.

Lemma thinking_loop_never_ends stream : forall acc ui,
  forallb (fun c => negb (ends_thinking c)) stream = true ->
  fst (fst (thinking_loop stream acc ui)) = (acc ++ stream_text stream)%string
  /\ snd (thinking_loop stream acc ui) = []
  /\ (forall e, In e (snd (fst (thinking_loop stream acc ui))) ->
       In e ui \/ exists text, e = PlaceholderMarkdown text)
  /\ exists more, snd (fst (thinking_loop stream acc ui)) = ui ++ more.
Proof.
  induction stream as [|c stream IH]; intros acc ui Hall.
  - cbn. rewrite append_empty_r. split; [reflexivity|]. split; [reflexivity|].
    split; [auto|]. exists []. now rewrite app_nil_r.
  - cbn [forallb] in Hall. apply andb_prop in Hall as [Hc Hall].
    cbn [thinking_loop stream_text]. cbv zeta. unfold ends_thinking in Hc.
    rewrite <- append_assoc.
    destruct (contains "<think>" (content_or_empty c)); [now apply IH|].
    destruct (contains "</think>" (content_or_empty c)); [discriminate|].
    destruct (IH (acc ++ content_or_empty c)%string
                (ui ++ [PlaceholderMarkdown
                          (format_reasoning_response (acc ++ content_or_empty c))])
                Hall) as (Ht & Hrest & Hui & (more & Hmore)).
    split; [exact Ht|]. split; [exact Hrest|]. split.
    + intros e He. destruct (Hui e He) as [Hin|Hmd]; [|now right].
      apply in_app_or in Hin as [Hin|[<-|[]]]; [now left|right; eauto].
    + rewrite Hmore, <- app_assoc. eauto.
Qed.

(** X17: when no chunk holds ["</think>"] without ["<think>"] (the
    model does not think, or the closing tag comes in the chunk of the
    opening one), the thinking phase reads the stream to its end: the whole
    answer is returned as thinking content, the status is never given the
    label of a finished thinking phase (no [status.update] runs), it
    becomes complete only by the end of its block, under the label it was
    opened with, and the response phase finds nothing and returns the
    empty string. *)
Theorem thinking_without_closing_chunk stream :
  forallb (fun c => negb (ends_thinking c)) stream = true ->
  let '(thinking_content, ui, rest) := process_thinking_phase stream in
  thinking_content = stream_text stream
  /\ rest = []
  /\ (forall label, ~ In (StatusUpdated label) ui)
  /\ List.hd PlaceholderCreated ui = StatusOpened "Thinking..."
  /\ List.last ui PlaceholderCreated = StatusCompleted
  /\ process_response_phase rest = ("", [PlaceholderCreated]).
Proof.
  intros Hall. unfold process_thinking_phase.
  destruct (thinking_loop_never_ends stream ""
              [StatusOpened "Thinking..."; PlaceholderCreated] Hall)
    as (Ht & Hrest & Hui & Hhd).
  destruct (thinking_loop stream "" _) as [[thinking ui] rest].
  cbn [fst snd] in *. subst.
  assert (Hrun : status_running ui = true).
  { unfold status_running. apply negb_true_iff. apply not_true_is_false.
    intros Hex. apply existsb_exists in Hex as (e & Hin & He).
    destruct (Hui e Hin) as [[<-|[<-|[]]]|(text & ->)]; discriminate He. }
  rewrite Hrun.
  split; [reflexivity|]. split; [reflexivity|].
  split; [|split; [|split; [apply last_last|reflexivity]]].
  - intros label Hin. apply in_app_or in Hin as [Hin|[H|[]]]; [|discriminate H].
    destruct (Hui _ Hin) as [[H|[H|[]]]|(text & H)]; discriminate H.
  - destruct Hhd as (tl & ->). reflexivity.
Qed.

(** ** [format_reasoning_response] *)

Lemma replace_from_no_occurrence (old new : string) s :
  contains old s = false -> replace_from old new 0 s = s.
Proof.
  induction s as [|c s IH]; intros H; [reflexivity|].
  cbn [contains] in H. apply orb_false_elim in H as [Hhere Hlater].
  cbn [replace_from]. rewrite Hhere. f_equal. now apply IH.
Qed.

Ltac decide_char_tests :=
  repeat match goal with
         | |- context [Ascii.eqb ?a ?b] => destruct (Ascii.eqb a b); cbn
         end.

(** No occurrence of the opening tag straddles the end of a text and a
    closing tag that follows it. *)
Lemma opening_not_across s :
  starts_with "<think>" s = false ->
  starts_with "<think>" (s ++ "</think>") = false.
Proof.
  destruct s as [|c1 [|c2 [|c3 [|c4 [|c5 [|c6 [|c7 s]]]]]]];
    rewrite ?append_cons; cbn; intros H;
    try exact H; decide_char_tests; reflexivity.
Qed.

(** Nor does an occurrence of the closing tag that starts inside the
    text. *)
Lemma closing_not_across c s :
  starts_with "</think>" (String c s) = false ->
  starts_with "</think>" (String c s ++ "</think>") = false.
Proof.
  destruct s as [|c2 [|c3 [|c4 [|c5 [|c6 [|c7 [|c8 s]]]]]]];
    rewrite ?append_cons; cbn; intros H;
    try exact H; decide_char_tests; reflexivity.
Qed.

Lemma opening_absent_before_closing body :
  contains "<think>" body = false ->
  contains "<think>" (body ++ "</think>") = false.
Proof.
  induction body as [|c body IH]; intros H; [reflexivity|].
  pose proof H as H'. cbn [contains] in H'.
  apply orb_false_elim in H' as [Hhere Hlater].
  rewrite append_cons. cbn [contains]. rewrite <- append_cons.
  rewrite (opening_not_across _ Hhere). now apply IH.
Qed.

Lemma closing_removed body :
  contains "</think>" body = false ->
  replace_from "</think>" "" 0 (body ++ "</think>") = body.
Proof.
  induction body as [|c body IH]; intros H; [reflexivity|].
  pose proof H as H'. cbn [contains] in H'.
  apply orb_false_elim in H' as [Hhere Hlater].
  rewrite append_cons. cbn [replace_from]. rewrite <- append_cons.
  rewrite (closing_not_across _ _ Hhere). f_equal. now apply IH.
Qed.

(** X18: [format_reasoning_response] takes the tags off a thinking
    block: for a text that holds neither tag, the block
    ["<think>" + text + "</think>"] is formatted to the text itself, and
    the text alone is left unchanged. *)
Theorem format_reasoning_response_unwraps body :
  contains "<think>" body = false ->
  contains "</think>" body = false ->
  format_reasoning_response ("<think>" ++ body ++ "</think>") = body
  /\ format_reasoning_response body = body.
Proof.
  intros Hopen Hclose. unfold format_reasoning_response, py_replace. split.
  - assert (H1 : replace_from "<think>" "" 0 ("<think>" ++ body ++ "</think>")
                 = (body ++ "</think>")%string).
    { rewrite !append_cons. cbn [replace_from starts_with Ascii.eqb Bool.eqb andb
        String.length Nat.sub].
      change ("" ++ body ++ "</think>")%string with (body ++ "</think>")%string.
      change ("" ++ ?x)%string with x.
      apply replace_from_no_occurrence. now apply opening_absent_before_closing. }
    rewrite H1. now apply closing_removed.
  - rewrite (replace_from_no_occurrence _ _ _ Hopen).
    now apply replace_from_no_occurrence.
Qed.

(** * The further properties at concrete inputs *)

Lemma ingest_missing_repository_witness :
  ingest one_chunk_per_document posix_resolve demo_fs "/nowhere" demo_world
  = (Raise (FileNotFoundError
              (str_abs (posix_resolve "/nowhere") ++ " does not exist")),
     demo_world).
Proof.
  apply (ingest_missing_repository one_chunk_per_document posix_resolve demo_fs
           "/nowhere" demo_world).
  reflexivity.
Defined.

Lemma ingest_aborts_on_unreadable_file_witness :
  exists rel',
    ~ readable demo_fs_binary (posix_resolve "/repo" ++ rel')
    /\ ingest one_chunk_per_document posix_resolve demo_fs_binary "/repo" new_world
       = (Raise (RuntimeError
                   ("Error loading " ++ str_abs (posix_resolve "/repo" ++ rel'))),
          with_repo_root (posix_resolve "/repo") new_world).
Proof.
  apply (ingest_aborts_on_unreadable_file one_chunk_per_document posix_resolve
           demo_fs_binary "/repo" new_world
           (Dir [("a.py", File (Some "def f(): return 1"));
                 ("logo.txt", File None);
                 ("run.sh", File (Some "echo hello"))])
           ["logo.txt"]).
  - reflexivity.
  - discriminate.
  - reflexivity.
  - refine (bool_decide_eq_true_1 _ _). vm_compute. reflexivity.
Defined.

Lemma ingest_returns_witness :
  exists docs choice,
    exists_ demo_fs (posix_resolve "/repo") = true
    /\ _load_repo (include_ext (self new_world)) demo_fs (posix_resolve "/repo")
       = Ok docs
    /\ search_choice (retrieval_settings (self new_world)) = Ok choice
    /\ (forall c, In c (make_chunks one_chunk_per_document docs) ->
          In c (stored demo_world))
    /\ (forall c, In c (stored demo_world) ->
          In c (stored new_world) \/ In c (make_chunks one_chunk_per_document docs))
    /\ vector_store (self demo_world) = Some ChromaClient
    /\ retriever (self demo_world)
       = Some (as_retriever ChromaClient (fst choice) (snd choice))
    /\ _repo_root (self demo_world) = Some (posix_resolve "/repo")
    /\ retrieval_settings (self demo_world) = retrieval_settings (self new_world)
    /\ include_ext (self demo_world) = include_ext (self new_world)
    /\ fst (has_vector_db demo_world) = Ok true
    /\ fst (ready_for_retrieval demo_world) = Ok true.
Proof.
  apply (ingest_returns one_chunk_per_document posix_resolve demo_fs "/repo"
           new_world demo_world).
  vm_compute. reflexivity.
Defined.

Lemma load_repo_exactly_eligible_files_witness :
  let d := loaded_document "stale build notes" "/repo/build/notes.md"
             "build/notes.md" in
  let node :=
    Dir [("a.py", File (Some "def f(): return 1"));
         ("b.py", File (Some "def g(): return 2"));
         ("ok.txt", File (Some " ok "));
         ("build", Dir [("notes.md", File (Some "stale build notes"))])] in
  In d [loaded_document "def f(): return 1" "/repo/a.py" "a.py";
        loaded_document "def g(): return 2" "/repo/b.py" "b.py";
        loaded_document " ok " "/repo/ok.txt" "ok.txt";
        d]
  <-> exists rel text,
        (exists content, In (rel, File content) (rglob node))
        /\ lower (suffix rel) ∈ default_include_ext
        /\ lookup_path demo_fs (["repo"] ++ rel) = Some (File (Some text))
        /\ d = loaded_document text (str_abs (["repo"] ++ rel)) (str_rel rel).
Proof.
  cbv zeta.
  apply (load_repo_exactly_eligible_files default_include_ext demo_fs ["repo"]);
    vm_compute; reflexivity.
Defined.

Lemma update_reindexes_one_file_witness :
  update_files one_chunk_per_document posix_resolve demo_fs_binary
    ["/repo/run.sh"] demo_world
  = (Ok tt,
     mkWorld
       (set_retriever
          (Some (as_retriever ChromaClient (Some "mmr")
                   (Some (<["k" := PyInt 6]> (<["fetch_k" := PyInt 20]>
                            (<["lambda_mult" := PyFloat (1 # 2)]> ∅))))))
          (self demo_world))
       (ChromaStore
          (stored demo_world
             ++ [loaded_document "echo hello" "/repo/run.sh" "run.sh"]))
       (stdout demo_world))
  /\ update_files one_chunk_per_document posix_resolve demo_fs
       ["/repo/ok.txt"] demo_world
     = (Raise empty_upsert, demo_world).
Proof.
  split.
  - apply (update_reindexes_one_file one_chunk_per_document posix_resolve
             demo_fs_binary "/repo/run.sh" demo_world ChromaClient ["repo"]
             (stored demo_world) ["run.sh"] "echo hello"
             (Some "mmr",
              Some (<["k" := PyInt 6]> (<["fetch_k" := PyInt 20]>
                      (<["lambda_mult" := PyFloat (1 # 2)]> ∅)))));
      vm_compute; reflexivity.
  - apply (update_reindexes_one_file one_chunk_per_document posix_resolve
             demo_fs "/repo/ok.txt" demo_world ChromaClient ["repo"]
             (stored demo_world) ["ok.txt"] " ok "
             (Some "mmr",
              Some (<["k" := PyInt 6]> (<["fetch_k" := PyInt 20]>
                      (<["lambda_mult" := PyFloat (1 # 2)]> ∅)))));
      vm_compute; reflexivity.
Defined.

Lemma update_unreadable_file_drops_chunks_witness :
  exists rel',
    In rel' [["a.py"]; ["logo.txt"]]
    /\ ~ readable demo_fs_binary (["repo"] ++ rel')
    /\ update_files one_chunk_per_document posix_resolve demo_fs_binary
         ["/repo/a.py"; "/repo/logo.txt"] demo_world
       = (Raise (RuntimeError ("Error loading " ++ str_abs (["repo"] ++ rel'))),
          mkWorld (self demo_world)
            (ChromaStore
               (without_sources (List.map str_rel [["a.py"]; ["logo.txt"]])
                  (stored demo_world)))
            (stdout demo_world)).
Proof.
  apply (update_unreadable_file_drops_chunks one_chunk_per_document posix_resolve
           demo_fs_binary ["/repo/a.py"; "/repo/logo.txt"] demo_world ChromaClient
           ["repo"] (stored demo_world) [["a.py"]; ["logo.txt"]] ["logo.txt"]);
    try (vm_compute; reflexivity).
  - right. left. reflexivity.
  - intros (text & H). discriminate H.
Defined.

Lemma update_without_root_witness :
  (["/repo/a.py"] <> [] ->
   update_files one_chunk_per_document posix_resolve demo_fs ["/repo/a.py"]
     restored_world
   = (Raise TypeError, restored_world))
  /\ update_files one_chunk_per_document posix_resolve demo_fs [] restored_world
     = _build_chain restored_world.
Proof.
  apply (update_without_root one_chunk_per_document posix_resolve demo_fs
           ["/repo/a.py"] restored_world ChromaClient);
    vm_compute; reflexivity.
Defined.

Lemma set_retrieval_settings_missing_key_witness :
  let settings : gmap string PyVal :=
    <["ret_strat" := PyStr "mmr"]> (<["k" := PyInt 3]> ∅) in
  exists key,
    set_retrieval_settings settings demo_world
    = (Raise (KeyError key),
       mkWorld (set_retrieval_settings_attr settings (self demo_world))
         (disk demo_world) (stdout demo_world))
    /\ retriever (set_retrieval_settings_attr settings (self demo_world))
       = retriever (self demo_world).
Proof.
  cbv zeta.
  apply (set_retrieval_settings_missing_key
           (<["ret_strat" := PyStr "mmr"]> (<["k" := PyInt 3]> ∅))
           demo_world ChromaClient);
    vm_compute; reflexivity.
Defined.

Lemma store_survives_restart_witness :
  let w2 := __init__ None similarity_settings (disk demo_world) in
  stored w2 = stored demo_world
  /\ disk w2 = disk demo_world
  /\ vector_store (self w2) = Some ChromaClient
  /\ fst (ready_for_retrieval w2) = Ok true
  /\ stdout w2 = []
  /\ _repo_root (self demo_world) = Some (posix_resolve "/repo")
  /\ _repo_root (self w2) = None.
Proof.
  apply (store_survives_restart one_chunk_per_document posix_resolve demo_fs
           "/repo" new_world demo_world None similarity_settings);
    vm_compute; reflexivity.
Defined.

Lemma reset_keeps_what_destroy_removes_witness :
  self (snd (clear demo_world)) = self (snd (clear_vector_db demo_world))
  /\ (let w2 := __init__ None default_retrieval_settings
                  (disk (snd (clear demo_world))) in
      vector_store (self w2) = Some ChromaClient /\ stored w2 = stored demo_world)
  /\ (let w2 := __init__ None default_retrieval_settings
                  (disk (snd (clear_vector_db demo_world))) in
      vector_store (self w2) = None /\ stored w2 = []).
Proof.
  apply (reset_keeps_what_destroy_removes demo_world (stored demo_world) None
           default_retrieval_settings);
    vm_compute; reflexivity.
Defined.

Lemma bad_settings_fixed_without_reingest_witness :
  let w := __init__ None ∅ EmptyDir in
  let r1 := ingest one_chunk_per_document posix_resolve demo_fs "/repo" w in
  let r2 := set_retrieval_settings default_retrieval_settings (snd r1) in
  (exists key, fst r1 = Raise (KeyError key))
  /\ vector_store (self (snd r1)) = Some ChromaClient
  /\ retriever (self (snd r1)) = retriever (self w)
  /\ (forall c, In c (make_chunks one_chunk_per_document
                        [loaded_document "def f(): return 1" "/repo/a.py" "a.py";
                         loaded_document "def g(): return 2" "/repo/b.py" "b.py";
                         loaded_document " ok " "/repo/ok.txt" "ok.txt";
                         loaded_document "stale build notes" "/repo/build/notes.md"
                           "build/notes.md"]) ->
        In c (stored (snd r1)))
  /\ fst r2 = Ok tt
  /\ retriever (self (snd r2))
     = Some (as_retriever ChromaClient (Some "mmr")
               (Some (<["k" := PyInt 6]> (<["fetch_k" := PyInt 20]>
                        (<["lambda_mult" := PyFloat (1 # 2)]> ∅)))))
  /\ disk (snd r2) = disk (snd r1).
Proof.
  apply (bad_settings_fixed_without_reingest one_chunk_per_document posix_resolve
           demo_fs "/repo" (__init__ None ∅ EmptyDir)
           [loaded_document "def f(): return 1" "/repo/a.py" "a.py";
            loaded_document "def g(): return 2" "/repo/b.py" "b.py";
            loaded_document " ok " "/repo/ok.txt" "ok.txt";
            loaded_document "stale build notes" "/repo/build/notes.md"
              "build/notes.md"]
           [] default_retrieval_settings
           (Some "mmr",
            Some (<["k" := PyInt 6]> (<["fetch_k" := PyInt 20]>
                    (<["lambda_mult" := PyFloat (1 # 2)]> ∅)))));
    vm_compute; first [reflexivity|discriminate].
Defined.

Lemma thinking_ends_at_closing_chunk_witness :
  let '(thinking_content, ui, rest) :=
    process_thinking_phase
      ([mkChunk (Some "<think>"); mkChunk (Some "plan"); mkChunk None]
         ++ mkChunk (Some "</think>")
         :: [mkChunk (Some "The "); mkChunk (Some "answer")]) in
  thinking_content
  = stream_text ([mkChunk (Some "<think>"); mkChunk (Some "plan"); mkChunk None]
                   ++ [mkChunk (Some "</think>")])
  /\ rest = [mkChunk (Some "The "); mkChunk (Some "answer")]
  /\ List.last ui PlaceholderCreated = StatusUpdated "Thinking complete!"
  /\ fst (process_response_phase rest)
     = stream_text [mkChunk (Some "The "); mkChunk (Some "answer")].
Proof.
  apply (thinking_ends_at_closing_chunk
           [mkChunk (Some "<think>"); mkChunk (Some "plan"); mkChunk None]
           (mkChunk (Some "</think>"))
           [mkChunk (Some "The "); mkChunk (Some "answer")]);
    reflexivity.
Defined.

Lemma thinking_without_closing_chunk_witness :
  let '(thinking_content, ui, rest) :=
    process_thinking_phase
      [mkChunk (Some "<think>hm</think>"); mkChunk (Some "answer")] in
  thinking_content
  = stream_text [mkChunk (Some "<think>hm</think>"); mkChunk (Some "answer")]
  /\ rest = []
  /\ (forall label, ~ In (StatusUpdated label) ui)
  /\ List.hd PlaceholderCreated ui = StatusOpened "Thinking..."
  /\ List.last ui PlaceholderCreated = StatusCompleted
  /\ process_response_phase rest = ("", [PlaceholderCreated]).
Proof.
  apply (thinking_without_closing_chunk
           [mkChunk (Some "<think>hm</think>"); mkChunk (Some "answer")]).
  reflexivity.
Defined.

Lemma format_reasoning_response_unwraps_witness :
  format_reasoning_response ("<think>" ++ "read a.py, then answer" ++ "</think>")
  = "read a.py, then answer"
  /\ format_reasoning_response "read a.py, then answer" = "read a.py, then answer".
Proof.
  apply (format_reasoning_response_unwraps "read a.py, then answer"); reflexivity.
Defined.

Lemma ingest_after_destroy_raises_witness :
  let w1 := snd (clear_vector_db demo_world) in
  let r := ingest one_chunk_per_document posix_resolve demo_fs_edited "/repo" w1 in
  fst (clear_vector_db demo_world) = Ok tt
  /\ stored w1 = []
  /\ fst r = Raise (ChromaError database_moved)
  /\ fst (has_vector_db (snd r)) = Ok false
  /\ fst (ready_for_retrieval (snd r)) = Ok false.
Proof.
  assert (Hd : disk demo_world = ChromaStore (stored demo_world))
    by (vm_compute; reflexivity).
  destruct (ingest_after_destroy_raises one_chunk_per_document posix_resolve
              demo_world (stored demo_world) Hd) as (H1 & H2 & H3).
  destruct (H3 demo_fs_edited "/repo") as (_ & H4 & H5 & H6).
  split; [exact H1|]. split; [exact H2|].
  split; [|split; [exact H5|exact H6]].
  apply H4; [reflexivity|]. eexists. vm_compute. reflexivity.
Defined.
